(** * SSH routing scripts: route resolution and chain-based remote execution

    A shallow embedding of [scripts/python/ssh_router.py] (class [SSHRouter]
    and [main]) and of the script path of [scripts/python/ssh_jump_exec.py]
    (class [SSHJumpExecutor]), followed by the properties of route
    resolution, transport-command construction and the run state machine.

    Conventions of the embedding:
    - Python [str] is [string]; a value that may be [None] is a [value].
    - A JSON object is an association list from keys to values.
    - Everything outside the two scripts (the [ipaddress] module, DNS,
      [subprocess.run], the filesystem, the clock, the process id) is a
      field of a [platform] record; the definitions are parametric in it.
    - [print], [subprocess.run] and file writes are effects threaded in a
      state monad over [world]; [sys.exit] and an uncaught exception are
      the two abnormal outcomes of a computation.
    - [self.result], the dictionary an executor fills in as it goes, is a
      field of the executor object; a method that mutates it returns the
      updated object. *)

From Stdlib Require Import String Ascii List ZArith Bool Lia DecimalString.
From Stdlib Require DecimalPos DecimalZ.
Import ListNotations.
Open Scope string_scope.
Open Scope Z_scope.

(* ================================================================== *)
(** * Python values and strings                                        *)
(* ================================================================== *)

(** The values the scripts handle that may be absent: [None] or a [str].
    Route fields, [command], [script] and [ssh_key] are of this kind. *)
Inductive value : Type :=
| VNone
| VStr (s : string).

(** Python truthiness: [None] and the empty string are false. *)
Definition truthy (v : value) : bool :=
  match v with
  | VNone => false
  | VStr s => negb (String.eqb s "")
  end.

(** [v == lit] for a string literal [lit]. *)
Definition is_str (v : value) (lit : string) : bool :=
  match v with
  | VNone => false
  | VStr s => String.eqb s lit
  end.

(** [str(v)], as an f-string renders it. *)
Definition str_value (v : value) : string :=
  match v with
  | VNone => "None"
  | VStr s => s
  end.

(** [str(n)] for an integer. *)
Definition str_int (n : Z) : string := NilZero.string_of_int (Z.to_int n).

(** A JSON object (a Python [dict] with string keys). *)
Definition dict := list (string * value).

(** [d.get(k, dflt)]: the default is used only when the key is absent; a
    key bound to [null] yields [None]. *)
Fixpoint get_default (d : dict) (k : string) (dflt : value) : value :=
  match d with
  | [] => dflt
  | (k', v) :: d' => if String.eqb k' k then v else get_default d' k dflt
  end.

(** [d.get(k)]. *)
Definition get (d : dict) (k : string) : value := get_default d k VNone.

(** [s.split(sep)] for a one-character separator: never empty, one more
    piece than there are separators. *)
Fixpoint split (sep : ascii) (s : string) : list string :=
  match s with
  | EmptyString => [EmptyString]
  | String c s' =>
      if Ascii.eqb c sep then EmptyString :: split sep s'
      else match split sep s' with
           | [] => [String c EmptyString]
           | piece :: rest => String c piece :: rest
           end
  end.

(** [pieces[0]] and [pieces[-1]] of a split (which is never empty). *)
Definition first_piece (pieces : list string) : string := hd "" pieces.
Definition last_piece (pieces : list string) : string := last pieces "".

(** Whitespace as [str.split()] sees it, on the ASCII range. *)
Definition is_space (c : ascii) : bool :=
  let n := Z.of_N (N_of_ascii c) in
  ((9 <=? n) && (n <=? 13)) || ((28 <=? n) && (n <=? 32)).

(** [s.split()]: maximal runs of non-whitespace characters.  [cur] is the
    token being read; [None] between tokens. *)
Fixpoint split_ws_from (s : string) (cur : option string) : list string :=
  match s with
  | EmptyString =>
      match cur with
      | None => []
      | Some tok => [tok]
      end
  | String c s' =>
      if is_space c then
        match cur with
        | None => split_ws_from s' None
        | Some tok => tok :: split_ws_from s' None
        end
      else
        match cur with
        | None => split_ws_from s' (Some (String c EmptyString))
        | Some tok => split_ws_from s' (Some (tok ++ String c EmptyString))
        end
  end.

Definition split_ws (s : string) : list string := split_ws_from s None.

(** [s.replace(a, b)] for single characters. *)
Fixpoint replace_char (a b : ascii) (s : string) : string :=
  match s with
  | EmptyString => EmptyString
  | String c s' => String (if Ascii.eqb c a then b else c) (replace_char a b s')
  end.

(** [s.strip()], as [lstrip] then [rstrip]. *)
Fixpoint lstrip (s : string) : string :=
  match s with
  | EmptyString => EmptyString
  | String c s' => if is_space c then lstrip s' else s
  end.

Fixpoint rstrip (s : string) : string :=
  match s with
  | EmptyString => EmptyString
  | String c s' =>
      match rstrip s' with
      | EmptyString => if is_space c then EmptyString else String c EmptyString
      | kept => String c kept
      end
  end.

Definition strip (s : string) : string := rstrip (lstrip s).

(** A line feed, for the messages that end in one. *)
Definition nl : string := String (ascii_of_nat 10) EmptyString.

(* ================================================================== *)
(** * The platform: what the scripts call but do not define            *)
(* ================================================================== *)

(** One [subprocess.run] request: the argument vector and the [timeout]
    keyword (in seconds) when one is given.  An element of the vector can
    be [None] only where the script puts an unset chain there. *)
Record call : Type := mkCall {
  argv : list value;
  timeout : option Z
}.

(** What [subprocess.run] does: the child exits with a return code and its
    two captured streams, or the call raises ([TimeoutExpired], [OSError],
    ...), with [str(e)] the message of the exception. *)
Inductive completed : Type :=
| Exited (returncode : Z) (stdout stderr : string)
| Raised (message : string).

(** What opening and parsing the routes file gives: [open] raises
    [FileNotFoundError], [json.load] raises [JSONDecodeError], or the file
    holds an object, with or without a ['routes'] key.  The routes are
    taken to be a list of objects whose fields are strings or [null]. *)
Inductive json_file : Type :=
| FileNotFound
| InvalidJson (message : string)
| JsonObject (routes : option (list dict)).

Record platform : Type := mkPlatform {
  (** [json.load(open(path))]. *)
  load_json : string -> json_file;
  (** [ipaddress]: an address, a network, parsing ([None] when the library
      raises) and the membership test [addr in net]. *)
  ip_addr : Type;
  ip_net : Type;
  ip_address : string -> option ip_addr;
  ip_network : value -> option ip_net;
  net_contains : ip_net -> ip_addr -> bool;
  (** [socket.gethostbyname]; [None] when it raises. *)
  gethostbyname : string -> option string;
  (** [subprocess.run], which may depend on the calls made before. *)
  subprocess_run : list call -> call -> completed;
  (** [os.getpid()]. *)
  getpid : Z;
  (** [Path(p).name] and [Path(p).stem]. *)
  path_name : string -> string;
  path_stem : string -> string;
  (** [dir.mkdir(parents=True, exist_ok=True)] and writing the file [name]
      in [dir]: [None] on success, the text of the exception otherwise. *)
  mkdir_error : string -> option string;
  write_error : string -> string -> option string;
  (** The text [parser.print_help()] prints. *)
  help_text : string;
  (** [datetime.now()] in the two formats used, and
      [f"{os.getenv('USER')}@{os.uname().nodename}"]. *)
  now_stamp : string;
  now_iso : string;
  executed_by : string
}.

(* ================================================================== *)
(** * Effects                                                          *)
(* ================================================================== *)

(** The dictionary [self.result].  The two keys that are added while a run
    proceeds ([exit_code], [remote_script_path]) are [None] until then. *)
Record execution_result : Type := mkResult {
  res_operation : string;
  res_timestamp : string;
  res_jump_chain : value;
  res_target_host : string;
  res_target_ip : string;
  res_command : value;
  res_script : value;
  res_executed_by : string;
  res_success : bool;
  res_output : string;
  res_errors : list string;
  res_exit_code : option Z;
  res_remote_script_path : option string
}.

(** A written audit file: directory, file name, and the dumped record. *)
Record audit_file : Type := mkAuditFile {
  af_dir : string;
  af_name : string;
  af_record : execution_result
}.

(** What a process run leaves behind, oldest first: the text printed on
    the two streams (one entry per [print]), the [subprocess.run] calls
    made, and the audit files written. *)
Record world : Type := mkWorld {
  w_stdout : list string;
  w_stderr : list string;
  w_procs : list call;
  w_files : list audit_file
}.

Definition empty_world : world := mkWorld [] [] [] [].

(** How a computation ends: normally, by [sys.exit(code)], or by an
    exception nothing catches. *)
Inductive outcome (A : Type) : Type :=
| Ret (a : A)
| Exit (code : Z)
| Crash (message : string).
Arguments Ret {A} a.
Arguments Exit {A} code.
Arguments Crash {A} message.

Definition M (A : Type) : Type := world -> outcome A * world.

Definition ret {A} (a : A) : M A := fun w => (Ret a, w).

Definition bind {A B} (m : M A) (k : A -> M B) : M B :=
  fun w =>
    match m w with
    | (Ret a, w') => k a w'
    | (Exit code, w') => (Exit code, w')
    | (Crash msg, w') => (Crash msg, w')
    end.

Declare Scope py_scope.
Delimit Scope py_scope with py.
Notation "x <- m ;; k" := (bind m (fun x => k))
  (at level 100, m at next level, right associativity) : py_scope.
Notation "m ;; k" := (bind m (fun _ => k))
  (at level 100, right associativity) : py_scope.
Open Scope py_scope.

(** [print(s)]. *)
Definition print (s : string) : M unit :=
  fun w => (Ret tt, mkWorld (w_stdout w ++ [s]) (w_stderr w) (w_procs w) (w_files w)).

(** [print(s, file=sys.stderr)]. *)
Definition eprint (s : string) : M unit :=
  fun w => (Ret tt, mkWorld (w_stdout w) (w_stderr w ++ [s]) (w_procs w) (w_files w)).

(** [sys.exit(code)]. *)
Definition sys_exit {A} (code : Z) : M A := fun w => (Exit code, w).

(** An exception that propagates to the top level. *)
Definition crash {A} (msg : string) : M A := fun w => (Crash msg, w).

(** When [b] holds, do [m]. *)
Definition when (b : bool) (m : M unit) : M unit := if b then m else ret tt.

Notation "' pat <- m ;; k" :=
  (bind m (fun x => match x with pat => k end))
  (at level 100, pat pattern, m at next level, right associativity) : py_scope.

(** [subprocess.run(...)]: the platform answers, and the call is logged. *)
Definition run_process (P : platform) (c : call) : M completed :=
  fun w =>
    (Ret (subprocess_run P (w_procs w) c),
     mkWorld (w_stdout w) (w_stderr w) (w_procs w ++ [c])%list (w_files w)).

(** [json.dump(record, open(dir / name, 'w'))], once it has succeeded. *)
Definition write_file (dir name : string) (record : execution_result) : M unit :=
  fun w =>
    (Ret tt,
     mkWorld (w_stdout w) (w_stderr w) (w_procs w)
             (w_files w ++ [mkAuditFile dir name record])%list).

(** [result['errors'].append(e)]. *)
Definition append_error (r : execution_result) (e : string) : execution_result :=
  mkResult (res_operation r) (res_timestamp r) (res_jump_chain r)
           (res_target_host r) (res_target_ip r) (res_command r) (res_script r)
           (res_executed_by r) (res_success r) (res_output r)
           (res_errors r ++ [e])%list (res_exit_code r) (res_remote_script_path r).

(** The three assignments after a remote process has returned:
    [result['output'] = output], [result['exit_code'] = returncode],
    [result['success'] = returncode == 0]. *)
Definition record_exit (r : execution_result) (output : string) (returncode : Z) :
  execution_result :=
  mkResult (res_operation r) (res_timestamp r) (res_jump_chain r)
           (res_target_host r) (res_target_ip r) (res_command r) (res_script r)
           (res_executed_by r) (returncode =? 0) output
           (res_errors r) (Some returncode) (res_remote_script_path r).

(** [result['remote_script_path'] = path]. *)
Definition record_remote_script (r : execution_result) (path : string) :
  execution_result :=
  mkResult (res_operation r) (res_timestamp r) (res_jump_chain r)
           (res_target_host r) (res_target_ip r) (res_command r) (res_script r)
           (res_executed_by r) (res_success r) (res_output r)
           (res_errors r) (res_exit_code r) (Some path).

(** The second argument of [build_ssh_command]: a list, or a single item. *)
Inductive command_args : Type :=
| ArgList (items : list value)
| ArgOne (item : value).

(** The parsed command line of [ssh_router.py]. *)
Record arguments : Type := mkArguments {
  arg_routes : string;
  arg_target : value;
  arg_command : value;
  arg_script : value;
  arg_key : value;
  arg_list : bool;
  arg_upload : bool;
  arg_no_save : bool;
  arg_output : string
}.

(* ================================================================== *)
(** * [ssh_router.py]                                                  *)
(* ================================================================== *)

Module SSHRouter.

(** The attributes of an [SSHRouter] object. *)
Record router : Type := mkRouter {
  routes_file : string;
  target_host : string;
  command : value;
  script : value;
  ssh_key : value;
  save_output : bool;
  output_dir : string;
  timestamp : string;
  routes : list dict;
  target_ip : string;
  jump_chain : value;
  audit_dir : string;
  result : execution_result
}.

(** [self.result = r]; every other attribute is set once, by [__init__]. *)
Definition set_result (self : router) (r : execution_result) : router :=
  mkRouter (routes_file self) (target_host self) (command self) (script self)
           (ssh_key self) (save_output self) (output_dir self) (timestamp self)
           (routes self) (target_ip self) (jump_chain self) (audit_dir self) r.

(** How the [for] loop of [find_route] is left. *)
Inductive loop_exit : Type :=
| Returned (jump_chain : value)
| Fallthrough (default_route : value).

Section WithPlatform.

Variable P : platform.

(** [load_routes]. *)
Definition load_routes (routes_file : string) : M (list dict) :=
  match load_json P routes_file with
  | JsonObject None =>
      print ("Error: 'routes' key not found in " ++ routes_file) ;;
      sys_exit 1
  | JsonObject (Some routes) => ret routes
  | FileNotFound =>
      print ("Error: Routes file not found: " ++ routes_file) ;;
      sys_exit 1
  | InvalidJson e =>
      print ("Error: Invalid JSON in routes file: " ++ e) ;;
      sys_exit 1
  end.

(** [extract_ip], reading [self.target_host]. *)
Definition extract_ip (target_host : string) : string :=
  let addr := last_piece (split "@" target_host) in
  let addr := first_piece (split ":" addr) in
  match ip_address P addr with
  | Some _ => addr
  | None =>
      match gethostbyname P addr with
      | Some ip => ip
      | None => addr
      end
  end.

(** [ip_in_network]: any exception of the library gives [False]. *)
Definition ip_in_network (ip : string) (network : value) : bool :=
  match ip_address P ip with
  | None => false
  | Some a =>
      match ip_network P network with
      | None => false
      | Some n => net_contains P n a
      end
  end.

(** The [for] loop of [find_route]. *)
Fixpoint find_route_loop (target_ip : string) (routes : list dict)
         (default_route : value) : loop_exit :=
  match routes with
  | [] => Fallthrough default_route
  | route :: rest =>
      let network := get route "network" in
      let jump_chain := get route "via" in
      if is_str network "default" then
        find_route_loop target_ip rest jump_chain
      else if is_str network "direct" then
        find_route_loop target_ip rest default_route
      else if ip_in_network target_ip network then
        Returned jump_chain
      else
        find_route_loop target_ip rest default_route
  end.

(** [find_route], reading [self.routes] and [self.target_ip]. *)
Definition find_route (routes : list dict) (target_ip : string) : M value :=
  match find_route_loop target_ip routes VNone with
  | Returned jump_chain => ret jump_chain
  | Fallthrough default_route =>
      if truthy default_route then ret default_route
      else
        print ("Error: No route found for " ++ target_ip) ;;
        sys_exit 1
  end.

(** [__init__]. *)
Definition init (routes_file target_host : string) (command script ssh_key : value)
           (save_output : bool) (output_dir : string) : M router :=
  let timestamp := now_stamp P in
  routes <- load_routes routes_file ;;
  let target_ip := extract_ip target_host in
  jump_chain <- find_route routes target_ip ;;
  let audit_dir := output_dir ++ "/" ++ target_ip in
  ret (mkRouter routes_file target_host command script ssh_key save_output
                output_dir timestamp routes target_ip jump_chain audit_dir
                (mkResult "ssh_router" (now_iso P) jump_chain target_host
                          target_ip command script (executed_by P)
                          false "" [] None None)).

(** The reachability probe of one hop in [list_routes]. *)
Definition probe_command (first_hop : string) : call :=
  mkCall [VStr "ssh"; VStr "-o"; VStr "ConnectTimeout=5";
          VStr "-o"; VStr "StrictHostKeyChecking=accept-new";
          VStr first_hop; VStr "echo ok"]
         (Some 10).

(** The body of the [for] loop of [list_routes], from index [idx] on. *)
Fixpoint list_routes_loop (idx : Z) (routes : list dict) : M unit :=
  match routes with
  | [] => ret tt
  | route :: rest =>
      let network := get_default route "network" (VStr "unknown") in
      let jump_chain := get_default route "via" (VStr "") in
      let description := get_default route "description" (VStr "") in
      (if is_str network "default" then
         print ("Route " ++ str_int idx ++ ": DEFAULT ROUTE")
       else
         print ("Route " ++ str_int idx ++ ": " ++ str_value network)) ;;
      when (truthy description)
           (print ("  Description: " ++ str_value description)) ;;
      (if is_str jump_chain "direct" then
         print "  Jump Chain: DIRECT (no jump host)"
       else
         print ("  Jump Chain: " ++ str_value jump_chain) ;;
         match jump_chain with
         | VNone => crash "AttributeError: 'NoneType' object has no attribute 'split'"
         | VStr chain =>
             let first_hop := first_piece (split "," chain) in
             print "  Testing... " ;;
             r <- run_process P (probe_command first_hop) ;;
             match r with
             | Exited returncode _ _ =>
                 if returncode =? 0 then print "✓ Reachable"
                 else print "✗ Unreachable"
             | Raised _ => print "✗ Unreachable"
             end
         end) ;;
      print "" ;;
      list_routes_loop (idx + 1) rest
  end.

(** [list_routes]. *)
Definition list_routes (self : router) : M unit :=
  print "========================================" ;;
  print "  SSH Routes Configuration" ;;
  print "========================================" ;;
  print ("Routes File: " ++ routes_file self ++ nl) ;;
  list_routes_loop 1 (routes self) ;;
  print "========================================" ;;
  print ("Total routes configured: " ++ str_int (Z.of_nat (List.length (routes self)))) ;;
  print "========================================".

(** [build_ssh_command]. *)
Definition build_ssh_command (self : router) (args : command_args)
           (use_jump : bool) : list value :=
  let ssh_cmd := [VStr "ssh"] in
  let ssh_cmd :=
    if truthy (ssh_key self) then (ssh_cmd ++ [VStr "-i"; ssh_key self])%list
    else ssh_cmd in
  let ssh_cmd :=
    (ssh_cmd ++ [VStr "-o"; VStr "StrictHostKeyChecking=accept-new";
                 VStr "-o"; VStr "ConnectTimeout=10"])%list in
  let ssh_cmd :=
    if use_jump && negb (is_str (jump_chain self) "direct") then
      (ssh_cmd ++ [VStr "-J"; jump_chain self])%list
    else ssh_cmd in
  let ssh_cmd := (ssh_cmd ++ [VStr (target_host self)])%list in
  match args with
  | ArgList items => (ssh_cmd ++ items)%list
  | ArgOne item => (ssh_cmd ++ [item])%list
  end.

(** [test_connectivity]. *)
Definition test_connectivity (self : router) : M (bool * router) :=
  print "Testing connectivity..." ;;
  let use_jump := negb (is_str (jump_chain self) "direct") in
  let ssh_cmd := build_ssh_command self (ArgList [VStr "echo 'ok'"]) use_jump in
  r <- run_process P (mkCall ssh_cmd (Some 10)) ;;
  match r with
  | Exited returncode _ _ =>
      if returncode =? 0 then
        print ("✓ Connection successful" ++ nl) ;;
        ret (true, self)
      else
        print "✗ Connection failed" ;;
        ret (false, set_result self (append_error (result self) "Connection test failed"))
  | Raised e =>
      print ("✗ Connection failed: " ++ e) ;;
      ret (false, set_result self (append_error (result self) e))
  end.

(** [execute_command]. *)
Definition execute_command (self : router) : M (bool * router) :=
  print ("Executing command on " ++ target_host self ++ "...") ;;
  print "-----------------------------------" ;;
  let use_jump := negb (is_str (jump_chain self) "direct") in
  let ssh_cmd := build_ssh_command self (ArgList [command self]) use_jump in
  r <- run_process P (mkCall ssh_cmd (Some 300)) ;;
  match r with
  | Exited returncode out err =>
      let output := out ++ err in
      print output ;;
      let self := set_result self (record_exit (result self) output returncode) in
      print "-----------------------------------" ;;
      (if returncode =? 0 then print "✓ Command executed successfully"
       else print ("✗ Command failed (exit code: " ++ str_int returncode ++ ")")) ;;
      ret (returncode =? 0, self)
  | Raised e =>
      print ("✗ Error: " ++ e) ;;
      ret (false, set_result self (append_error (result self) e))
  end.

(** The [scp] invocation of [execute_script]. *)
Definition scp_command (self : router) (script remote_script : string) : list value :=
  let scp_cmd := [VStr "scp"] in
  let scp_cmd :=
    if truthy (ssh_key self) then (scp_cmd ++ [VStr "-i"; ssh_key self])%list
    else scp_cmd in
  let scp_cmd :=
    (scp_cmd ++ [VStr "-o"; VStr "StrictHostKeyChecking=accept-new"])%list in
  let scp_cmd :=
    if negb (is_str (jump_chain self) "direct") then
      (scp_cmd ++ [VStr "-o"; VStr ("ProxyJump=" ++ str_value (jump_chain self))])%list
    else scp_cmd in
  (scp_cmd ++ [VStr script; VStr (target_host self ++ ":" ++ remote_script)])%list.

(** [f"/tmp/{script_name}.{os.getpid()}"]. *)
Definition remote_script_path (script : string) : string :=
  "/tmp/" ++ path_name P script ++ "." ++ str_int (getpid P).

(** The handler [except Exception as e] shared by the [try] blocks. *)
Definition on_exception (self : router) (e : string) : M (bool * router) :=
  print ("✗ Error: " ++ e) ;;
  ret (false, set_result self (append_error (result self) e)).

(** [execute_script]. *)
Definition execute_script (self : router) (keep_script : bool) : M (bool * router) :=
  print ("Uploading script to " ++ target_host self ++ "...") ;;
  match script self with
  | VNone => crash "TypeError: expected str, bytes or os.PathLike object, not NoneType"
  | VStr script =>
      let remote_script := remote_script_path script in
      upload <- run_process P (mkCall (scp_command self script remote_script) None) ;;
      match upload with
      | Raised e => on_exception self e
      | Exited scp_code _ _ =>
          if negb (scp_code =? 0) then
            print "✗ Failed to upload script" ;;
            ret (false, self)
          else
            print "✓ Script uploaded" ;;
            let use_jump := negb (is_str (jump_chain self) "direct") in
            let chmod_cmd :=
              build_ssh_command self (ArgList [VStr ("chmod +x " ++ remote_script)])
                                use_jump in
            chmod <- run_process P (mkCall chmod_cmd None) ;;
            match chmod with
            | Raised e => on_exception self e
            | Exited _ _ _ =>
                print ("Executing script on " ++ target_host self ++ "...") ;;
                print "-----------------------------------" ;;
                let exec_cmd :=
                  build_ssh_command self (ArgList [VStr remote_script]) use_jump in
                r <- run_process P (mkCall exec_cmd (Some 300)) ;;
                match r with
                | Raised e => on_exception self e
                | Exited returncode out err =>
                    let output := out ++ err in
                    print output ;;
                    let self :=
                      set_result self (record_exit (result self) output returncode) in
                    print "-----------------------------------" ;;
                    cleaned <-
                      (if negb keep_script then
                         print "Cleaning up..." ;;
                         let cleanup_cmd :=
                           build_ssh_command self
                             (ArgList [VStr ("rm -f " ++ remote_script)]) use_jump in
                         c <- run_process P (mkCall cleanup_cmd None) ;;
                         match c with
                         | Raised e => ret (Some e)
                         | Exited _ _ _ => print "✓ Cleanup complete" ;; ret None
                         end
                       else ret None) ;;
                    match cleaned with
                    | Some e => on_exception self e
                    | None =>
                        (if returncode =? 0 then print "✓ Script executed successfully"
                         else print ("✗ Script failed (exit code: "
                                     ++ str_int returncode ++ ")")) ;;
                        ret (returncode =? 0, self)
                    end
                end
            end
      end
  end.

(** The file name chosen by [save_output_file], or the text of the
    exception raised while computing it. *)
Definition output_file_name (self : router) : string + string :=
  if truthy (command self) then
    match split_ws (str_value (command self)) with
    | [] => inr "list index out of range"
    | main_cmd :: _ =>
        inl (replace_char "/" "_" main_cmd ++ "-" ++ timestamp self ++ ".json")
    end
  else
    match script self with
    | VNone => inr "expected str, bytes or os.PathLike object, not NoneType"
    | VStr script =>
        inl ("script-" ++ path_stem P script ++ "-" ++ timestamp self ++ ".json")
    end.

(** [save_output_file]: any exception is reported on [stderr] and dropped. *)
Definition save_output_file (self : router) : M unit :=
  if negb (save_output self) then ret tt
  else
    match mkdir_error P (audit_dir self) with
    | Some e => eprint ("Error saving output: " ++ e)
    | None =>
        match output_file_name self with
        | inr e => eprint ("Error saving output: " ++ e)
        | inl output_file =>
            match write_error P (audit_dir self) output_file with
            | Some e => eprint ("Error saving output: " ++ e)
            | None =>
                write_file (audit_dir self) output_file (result self) ;;
                print (nl ++ "✓ Output: " ++ audit_dir self ++ "/" ++ output_file)
            end
        end
    end.

(** [run]. *)
Definition run (self : router) (keep_script : bool) : M (bool * router) :=
  print "========================================" ;;
  print "  SSH Router - Auto Route Selection" ;;
  print "========================================" ;;
  print ("Target Host: " ++ target_host self) ;;
  print ("Target IP: " ++ target_ip self) ;;
  (if is_str (jump_chain self) "direct" then print "Route: DIRECT (no jump host)"
   else print ("Route: " ++ str_value (jump_chain self))) ;;
  when (truthy (command self)) (print ("Command: " ++ str_value (command self))) ;;
  when (truthy (script self)) (print ("Script: " ++ str_value (script self))) ;;
  print "" ;;
  '(connected, self) <- test_connectivity self ;;
  if negb connected then
    save_output_file self ;;
    ret (false, self)
  else
    executed <-
      (if truthy (command self) then
         '(success, self) <- execute_command self ;; ret (Some (success, self))
       else if truthy (script self) then
         '(success, self) <- execute_script self keep_script ;; ret (Some (success, self))
       else ret None) ;;
    match executed with
    | None =>
        print "Error: No command or script specified" ;;
        ret (false, self)
    | Some (success, self) =>
        save_output_file self ;;
        print "" ;;
        print "========================================" ;;
        print "  Execution Complete" ;;
        print "========================================" ;;
        when (save_output self) (print ("Output directory: " ++ audit_dir self)) ;;
        ret (success, self)
    end.

(** [main], from the parsed command line on.  It always ends in
    [sys.exit], so it never returns normally. *)
Definition main (args : arguments) : M unit :=
  if arg_list args then
    router <- init (arg_routes args) "dummy@localhost" VNone VNone VNone true "./audit" ;;
    list_routes router ;;
    sys_exit 0
  else if negb (truthy (arg_target args)) then
    print "Error: --target is required" ;;
    print (help_text P) ;;
    sys_exit 1
  else if negb (truthy (arg_command args)) && negb (truthy (arg_script args)) then
    print "Error: Either --command or --script must be specified" ;;
    print (help_text P) ;;
    sys_exit 1
  else
    router <- init (arg_routes args) (str_value (arg_target args))
                   (arg_command args) (arg_script args) (arg_key args)
                   (negb (arg_no_save args)) (arg_output args) ;;
    '(success, _) <- run router (arg_upload args) ;;
    sys_exit (if success then 0 else 1).

End WithPlatform.
End SSHRouter.

(* ================================================================== *)
(** * [ssh_jump_exec.py]                                               *)
(* ================================================================== *)

Module SSHJumpExecutor.

(** The attributes of an [SSHJumpExecutor] object. *)
Record executor : Type := mkExecutor {
  jump_hosts : string;
  target_host : string;
  command : value;
  script : value;
  ssh_key : value;
  save_output : bool;
  output_dir : string;
  timestamp : string;
  target_ip : string;
  audit_dir : string;
  result : execution_result
}.

Definition set_result (self : executor) (r : execution_result) : executor :=
  mkExecutor (jump_hosts self) (target_host self) (command self) (script self)
             (ssh_key self) (save_output self) (output_dir self) (timestamp self)
             (target_ip self) (audit_dir self) r.

Section WithPlatform.

Variable P : platform.

(** [build_ssh_command], reading [ssh_key], [jump_hosts], [target_host]. *)
Definition build_ssh_command (ssh_key : value) (jump_hosts target_host : string)
           (args : command_args) : list value :=
  let ssh_cmd := [VStr "ssh"] in
  let ssh_cmd :=
    if truthy ssh_key then (ssh_cmd ++ [VStr "-i"; ssh_key])%list else ssh_cmd in
  let ssh_cmd :=
    (ssh_cmd ++ [VStr "-o"; VStr "StrictHostKeyChecking=accept-new";
                 VStr "-o"; VStr "ConnectTimeout=10";
                 VStr "-J"; VStr jump_hosts;
                 VStr target_host])%list in
  match args with
  | ArgList items => (ssh_cmd ++ items)%list
  | ArgOne item => (ssh_cmd ++ [item])%list
  end.

Definition ssh_command (self : executor) (args : command_args) : list value :=
  build_ssh_command (ssh_key self) (jump_hosts self) (target_host self) args.

(** [get_target_ip]. *)
Definition get_target_ip (ssh_key : value) (jump_hosts target_host : string) : M string :=
  let ssh_cmd :=
    build_ssh_command ssh_key jump_hosts target_host
                      (ArgList [VStr "hostname -I | awk '{print $1}'"]) in
  r <- run_process P (mkCall ssh_cmd (Some 10)) ;;
  let fallback :=
    let addr := last_piece (split "@" target_host) in
    first_piece (split ":" addr) in
  match r with
  | Exited returncode out _ =>
      if (returncode =? 0) && negb (String.eqb out "") then ret (strip out)
      else ret fallback
  | Raised _ => ret fallback
  end.

(** [__init__]. *)
Definition init (jump_hosts target_host : string) (command script ssh_key : value)
           (save_output : bool) (output_dir : string) : M executor :=
  let timestamp := now_stamp P in
  target_ip <- get_target_ip ssh_key jump_hosts target_host ;;
  let audit_dir := output_dir ++ "/" ++ target_ip in
  ret (mkExecutor jump_hosts target_host command script ssh_key save_output
                  output_dir timestamp target_ip audit_dir
                  (mkResult "ssh_jump_exec" (now_iso P) (VStr jump_hosts) target_host
                            target_ip command script (executed_by P)
                            false "" [] None None)).

(** [test_connectivity]. *)
Definition test_connectivity (self : executor) : M (bool * executor) :=
  print "Testing connectivity through jump chain..." ;;
  let ssh_cmd := ssh_command self (ArgList [VStr "echo 'Connection successful'"]) in
  r <- run_process P (mkCall ssh_cmd (Some 10)) ;;
  match r with
  | Exited returncode _ err =>
      if returncode =? 0 then
        print ("✓ Connection successful" ++ nl) ;;
        ret (true, self)
      else
        print "✗ Connection failed" ;;
        ret (false, set_result self
                      (append_error (result self) ("Connection test failed: " ++ err)))
  | Raised e =>
      print ("✗ Connection failed: " ++ e) ;;
      ret (false, set_result self (append_error (result self) e))
  end.

(** [execute_command]. *)
Definition execute_command (self : executor) : M (bool * executor) :=
  print ("Executing command on " ++ target_host self ++ "...") ;;
  print "-----------------------------------" ;;
  let ssh_cmd := ssh_command self (ArgList [command self]) in
  r <- run_process P (mkCall ssh_cmd (Some 300)) ;;
  match r with
  | Exited returncode out err =>
      let output := out ++ err in
      print output ;;
      let self := set_result self (record_exit (result self) output returncode) in
      print "-----------------------------------" ;;
      (if returncode =? 0 then print "✓ Command executed successfully"
       else print ("✗ Command failed with exit code: " ++ str_int returncode)) ;;
      ret (returncode =? 0, self)
  | Raised e =>
      print ("✗ Error executing command: " ++ e) ;;
      ret (false, set_result self (append_error (result self) e))
  end.

(** The [scp] invocation of [execute_script]. *)
Definition scp_command (self : executor) (script remote_script : string) : list value :=
  let scp_cmd := [VStr "scp"] in
  let scp_cmd :=
    if truthy (ssh_key self) then (scp_cmd ++ [VStr "-i"; ssh_key self])%list
    else scp_cmd in
  (scp_cmd ++ [VStr "-o"; VStr "StrictHostKeyChecking=accept-new";
               VStr "-o"; VStr "ConnectTimeout=10";
               VStr "-J"; VStr (jump_hosts self);
               VStr script;
               VStr (target_host self ++ ":" ++ remote_script)])%list.

Definition remote_script_path (script : string) : string :=
  "/tmp/" ++ path_name P script ++ "." ++ str_int (getpid P).

(** The handler [except Exception as e] of [execute_script]. *)
Definition on_exception (self : executor) (e : string) : M (bool * executor) :=
  print ("✗ Error executing script: " ++ e) ;;
  ret (false, set_result self (append_error (result self) e)).

(** [execute_script]. *)
Definition execute_script (self : executor) (keep_script : bool) : M (bool * executor) :=
  print ("Uploading script to " ++ target_host self ++ "...") ;;
  match script self with
  | VNone => crash "TypeError: expected str, bytes or os.PathLike object, not NoneType"
  | VStr script =>
      let remote_script := remote_script_path script in
      upload <- run_process P (mkCall (scp_command self script remote_script) None) ;;
      match upload with
      | Raised e => on_exception self e
      | Exited scp_code _ scp_err =>
          if negb (scp_code =? 0) then
            print ("✗ Failed to upload script: " ++ scp_err) ;;
            ret (false, set_result self
                          (append_error (result self) ("Upload failed: " ++ scp_err)))
          else
            print "✓ Script uploaded" ;;
            let chmod_cmd :=
              ssh_command self (ArgList [VStr ("chmod +x " ++ remote_script)]) in
            chmod <- run_process P (mkCall chmod_cmd None) ;;
            match chmod with
            | Raised e => on_exception self e
            | Exited _ _ _ =>
                print ("Executing script on " ++ target_host self ++ "...") ;;
                print "-----------------------------------" ;;
                let exec_cmd := ssh_command self (ArgList [VStr remote_script]) in
                r <- run_process P (mkCall exec_cmd (Some 300)) ;;
                match r with
                | Raised e => on_exception self e
                | Exited returncode out err =>
                    let output := out ++ err in
                    print output ;;
                    let self :=
                      set_result self
                        (record_remote_script
                           (record_exit (result self) output returncode)
                           remote_script) in
                    print "-----------------------------------" ;;
                    cleaned <-
                      (if negb keep_script then
                         print "Cleaning up..." ;;
                         let cleanup_cmd :=
                           ssh_command self (ArgList [VStr ("rm -f " ++ remote_script)]) in
                         c <- run_process P (mkCall cleanup_cmd None) ;;
                         match c with
                         | Raised e => ret (Some e)
                         | Exited _ _ _ => print "✓ Cleanup complete" ;; ret None
                         end
                       else
                         print ("Script kept on target: " ++ remote_script) ;;
                         ret None) ;;
                    match cleaned with
                    | Some e => on_exception self e
                    | None =>
                        (if returncode =? 0 then print "✓ Script executed successfully"
                         else print ("✗ Script failed with exit code: "
                                     ++ str_int returncode)) ;;
                        ret (returncode =? 0, self)
                    end
                end
            end
      end
  end.

Definition output_file_name (self : executor) : string + string :=
  if truthy (command self) then
    match split_ws (str_value (command self)) with
    | [] => inr "list index out of range"
    | main_cmd :: _ =>
        inl (replace_char "/" "_" main_cmd ++ "-" ++ timestamp self ++ ".json")
    end
  else
    match script self with
    | VNone => inr "expected str, bytes or os.PathLike object, not NoneType"
    | VStr script =>
        inl ("script-" ++ path_stem P script ++ "-" ++ timestamp self ++ ".json")
    end.

(** [save_output_file]. *)
Definition save_output_file (self : executor) : M unit :=
  if negb (save_output self) then ret tt
  else
    match mkdir_error P (audit_dir self) with
    | Some e => eprint ("Error saving output: " ++ e)
    | None =>
        match output_file_name self with
        | inr e => eprint ("Error saving output: " ++ e)
        | inl output_file =>
            match write_error P (audit_dir self) output_file with
            | Some e => eprint ("Error saving output: " ++ e)
            | None =>
                write_file (audit_dir self) output_file (result self) ;;
                print (nl ++ "✓ Output saved to: " ++ audit_dir self ++ "/" ++ output_file)
            end
        end
    end.

(** [run]. *)
Definition run (self : executor) (keep_script : bool) : M (bool * executor) :=
  print "========================================" ;;
  print "  SSH Jump Host Execution" ;;
  print "========================================" ;;
  print ("Jump Chain: " ++ jump_hosts self) ;;
  print ("Target: " ++ target_host self ++ " (" ++ target_ip self ++ ")") ;;
  when (truthy (command self)) (print ("Command: " ++ str_value (command self))) ;;
  when (truthy (script self)) (print ("Script: " ++ str_value (script self))) ;;
  when (save_output self) (print ("Output Dir: " ++ audit_dir self)) ;;
  print "" ;;
  '(connected, self) <- test_connectivity self ;;
  if negb connected then
    save_output_file self ;;
    ret (false, self)
  else
    executed <-
      (if truthy (command self) then
         '(success, self) <- execute_command self ;; ret (Some (success, self))
       else if truthy (script self) then
         '(success, self) <- execute_script self keep_script ;; ret (Some (success, self))
       else ret None) ;;
    match executed with
    | None =>
        print "Error: No command or script specified" ;;
        ret (false, self)
    | Some (success, self) =>
        save_output_file self ;;
        print "" ;;
        print "========================================" ;;
        print "  Execution Complete" ;;
        print "========================================" ;;
        when (save_output self) (print ("Output directory: " ++ audit_dir self)) ;;
        ret (success, self)
    end.

End WithPlatform.
End SSHJumpExecutor.

(* ================================================================== *)
(** * An example platform                                              *)
(* ================================================================== *)

(** The dotted-quad, prefix-length part of [ipaddress]: an address is its
    32-bit integer, a network its base address and prefix length.  Used to
    run the scripts on concrete inputs; the properties below hold for any
    platform. *)
Module IPv4.

Definition digit (c : ascii) : option Z :=
  let n := Z.of_N (N_of_ascii c) in
  if (48 <=? n) && (n <=? 57) then Some (n - 48) else None.

Fixpoint decimal (s : string) (acc : Z) : option Z :=
  match s with
  | EmptyString => Some acc
  | String c s' =>
      match digit c with
      | Some d => decimal s' (10 * acc + d)
      | None => None
      end
  end.

(** [_parse_octet]: one to three digits, no leading zero, at most 255. *)
Definition parse_octet (s : string) : option Z :=
  match s with
  | EmptyString => None
  | String c rest =>
      if (3 <? Z.of_nat (String.length s))%Z then None
      else if Ascii.eqb c "0" && negb (String.eqb rest "") then None
      else match decimal s 0 with
           | Some n => if n <=? 255 then Some n else None
           | None => None
           end
  end.

Definition parse_address (s : string) : option Z :=
  match split "." s with
  | [a; b; c; d] =>
      match parse_octet a, parse_octet b, parse_octet c, parse_octet d with
      | Some a, Some b, Some c, Some d => Some (((a * 256 + b) * 256 + c) * 256 + d)
      | _, _, _, _ => None
      end
  | _ => None
  end.

Definition parse_prefix (s : string) : option Z :=
  match s with
  | EmptyString => None
  | _ =>
      match decimal s 0 with
      | Some n => if n <=? 32 then Some n else None
      | None => None
      end
  end.

Definition netmask (prefixlen : Z) : Z :=
  Z.shiftl (Z.ones prefixlen) (32 - prefixlen).

(** [ip_network(s)] with [strict=True]: host bits must be clear. *)
Definition parse_network (v : value) : option (Z * Z) :=
  let parsed :=
    match split "/" (str_value v) with
    | [addr] =>
        match parse_address addr with
        | Some a => Some (a, 32)
        | None => None
        end
    | [addr; prefix] =>
        match parse_address addr, parse_prefix prefix with
        | Some a, Some p => Some (a, p)
        | _, _ => None
        end
    | _ => None
    end in
  match parsed with
  | Some (a, p) => if Z.land a (netmask p) =? a then Some (a, p) else None
  | None => None
  end.

Definition contains (net : Z * Z) (a : Z) : bool :=
  Z.land a (netmask (snd net)) =? fst net.

End IPv4.

(** The final component of a [/]-separated path, and that component
    without its last suffix. *)
Definition basename (p : string) : string := last_piece (split "/" p).

Fixpoint has_dot (s : string) : bool :=
  match s with
  | EmptyString => false
  | String c s' => Ascii.eqb c "." || has_dot s'
  end.

Fixpoint drop_suffix (s : string) : string :=
  match s with
  | EmptyString => EmptyString
  | String c s' =>
      if Ascii.eqb c "." && negb (has_dot s') then EmptyString
      else String c (drop_suffix s')
  end.

Definition stem (p : string) : string :=
  match basename p with
  | EmptyString => EmptyString
  | String c rest => String c (drop_suffix rest)
  end.

(** A platform with the given route file, resolver and process behaviour,
    a filesystem on which every write succeeds, and fixed clock and pid. *)
Definition example_platform (file : json_file) (dns : string -> option string)
           (processes : list call -> call -> completed) : platform :=
  mkPlatform (fun _ => file)
             Z (Z * Z) IPv4.parse_address IPv4.parse_network IPv4.contains
             dns processes 4242 basename stem
             (fun _ => None) (fun _ _ => None)
             "usage: ssh_router.py [-h] -r ROUTES"
             "20240101-120000" "2024-01-01T12:00:00" "ops@workstation".

(** A resolver that knows nothing, and one that knows [localhost]. *)
Definition no_dns : string -> option string := fun _ => None.
Definition localhost_dns : string -> option string :=
  fun name => if String.eqb name "localhost" then Some "127.0.0.1" else None.

(** A route-table entry [{"network": network, "via": via}]. *)
Definition entry (network via : string) : dict :=
  [("network", VStr network); ("via", VStr via)].

(* ================================================================== *)
(** * Vocabulary of the properties                                     *)
(* ================================================================== *)

(** A route whose selector is the sentinel ["default"], and one whose
    selector is either sentinel. *)
Definition is_default (route : dict) : bool :=
  is_str (get route "network") "default".

Definition is_sentinel (route : dict) : bool :=
  is_str (get route "network") "default" || is_str (get route "network") "direct".

(** [route] is a CIDR entry whose block contains [ip]. *)
Definition cidr_contains (P : platform) (ip : string) (route : dict) : bool :=
  negb (is_sentinel route) && SSHRouter.ip_in_network P ip (get route "network").

(** The world after [find_route] has reported that it found no route:
    one line on [stdout], nothing else. *)
Definition no_route_reported (ip : string) (w : world) : world :=
  mkWorld (w_stdout w ++ [("Error: No route found for " ++ ip)%string])%list
          (w_stderr w) (w_procs w) (w_files w).

(** [c] occurs in [s]. *)
Fixpoint has_char (c : ascii) (s : string) : bool :=
  match s with
  | EmptyString => false
  | String c' s' => Ascii.eqb c' c || has_char c s'
  end.

(** A route that is no CIDR entry containing the target: a sentinel, or a
    selector for which the containment test answers no. *)
Definition no_match (P : platform) (target_ip : string) (route : dict) : Prop :=
  is_sentinel route = true
  \/ SSHRouter.ip_in_network P target_ip (get route "network") = false.

(** The fallback the loop of [find_route] holds after [routes], starting
    from [d]: the [via] of the last ["default"] entry, if any. *)
Definition fallback_after (routes : list dict) (d : value) : value :=
  fold_left (fun d route => if is_default route then get route "via" else d) routes d.

(* ================================================================== *)
(** * Example inputs                                                   *)
(* ================================================================== *)

(** A platform on which nothing resolves and no process can be started. *)
Definition quiet_platform : platform :=
  example_platform FileNotFound no_dns (fun _ _ => Raised "unreachable").

Definition overlapping_routes : list dict :=
  [entry "default" "bastion";
   entry "direct" "direct";
   entry "172.16.0.0/12" "jumpC";
   entry "10.0.0.0/8" "jumpA";
   entry "10.1.0.0/16" "jumpB"].

(** The table of the first two scenarios, and tables whose only fallback
    has an empty or a missing chain. *)
Definition scenario_routes : list dict :=
  [entry "10.0.0.0/8" "jumpA"; entry "default" "bastion"].

Definition empty_default_routes : list dict :=
  [entry "10.0.0.0/8" "jumpA"; entry "default" ""].

(** A table without a fallback, as the file a platform serves, and the
    command line [ssh_router.py -r routes.json -l]. *)
Definition no_default_routes : list dict :=
  [entry "direct" "direct"; entry "10.0.0.0/8" "jumpA"].

Definition listing_platform : platform :=
  example_platform (JsonObject (Some no_default_routes)) localhost_dns
                   (fun _ _ => Exited 0 "ok" "").

Definition list_arguments : arguments :=
  mkArguments "routes.json" VNone VNone VNone VNone true false false "./audit".

(** The fallback rule as the specification words it: when no CIDR entry
    contains the target, the [via] of the last-declared ["default"] entry
    is returned if there is such an entry, and resolution fails with exit
    code 1 otherwise. *)
Definition default_route_rule (P : platform) (routes : list dict)
           (target_ip : string) : Prop :=
  (forall r, In r routes -> no_match P target_ip r) ->
  forall w,
    (forall before route after,
        routes = (before ++ route :: after)%list ->
        is_default route = true ->
        (forall r, In r after -> is_default r = false) ->
        SSHRouter.find_route P routes target_ip w = (Ret (get route "via"), w))
    /\ ((forall r, In r routes -> is_default r = false) ->
        fst (SSHRouter.find_route P routes target_ip w) = Exit 1).

(** A router as [__init__] leaves it, for a target reached through
    [chain], on the example platform. *)
Definition example_router (chain command script ssh_key : value)
           (save_output : bool) : SSHRouter.router :=
  SSHRouter.mkRouter "routes.json" "admin@10.1.2.3" command script ssh_key
    save_output "./audit" "20240101-120000" scenario_routes "10.1.2.3" chain
    "./audit/10.1.2.3"
    (mkResult "ssh_router" "2024-01-01T12:00:00" chain "admin@10.1.2.3"
              "10.1.2.3" command script "ops@workstation" false "" [] None None).

(* ================================================================== *)
(** * Calls, answers and traces of a run                               *)
(* ================================================================== *)

(** The platform answers the [n]-th [subprocess.run] of a process with the
    [n]-th entry of [answers], and raises when the list is exhausted. *)
Definition scripted (answers : list completed) : list call -> call -> completed :=
  fun history _ => nth (List.length history) answers (Raised "no answer").

Definition scripted_platform (answers : list completed) : platform :=
  example_platform FileNotFound no_dns (scripted answers).

(** A process that returned 0. *)
Definition passed (c : completed) : bool :=
  match c with
  | Exited returncode _ _ => returncode =? 0
  | Raised _ => false
  end.

(** [m], started in any world whose call log is [procs] and whose audit
    files are [files], ends with outcome [o] after making the calls
    [calls] and writing the files [written], in this order. *)
Definition yields {A : Type} (m : M A) (procs : list call) (files : list audit_file)
           (o : outcome A) (calls : list call) (written : list audit_file) : Prop :=
  forall w,
    w_procs w = procs ->
    w_files w = files ->
    exists w',
      m w = (o, w')
      /\ w_procs w' = (procs ++ calls)%list
      /\ w_files w' = (files ++ written)%list.

Module RouterTrace.
Import SSHRouter.

(** The calls of a router run, as the methods build them. *)
Definition use_jump (self : router) : bool := negb (is_str (jump_chain self) "direct").

Definition preflight_call (self : router) : call :=
  mkCall (build_ssh_command self (ArgList [VStr "echo 'ok'"]) (use_jump self)) (Some 10).

Definition command_call (self : router) : call :=
  mkCall (build_ssh_command self (ArgList [command self]) (use_jump self)) (Some 300).

Definition upload_call (P : platform) (self : router) (script : string) : call :=
  mkCall (scp_command self script (remote_script_path P script)) None.

Definition chmod_call (P : platform) (self : router) (script : string) : call :=
  mkCall (build_ssh_command self
            (ArgList [VStr ("chmod +x " ++ remote_script_path P script)])
            (use_jump self)) None.

Definition exec_call (P : platform) (self : router) (script : string) : call :=
  mkCall (build_ssh_command self (ArgList [VStr (remote_script_path P script)])
            (use_jump self)) (Some 300).

Definition cleanup_call (P : platform) (self : router) (script : string) : call :=
  mkCall (build_ssh_command self
            (ArgList [VStr ("rm -f " ++ remote_script_path P script)])
            (use_jump self)) None.

(** [self] after [result['errors'].append(e)]. *)
Definition with_error (self : router) (e : string) : router :=
  set_result self (append_error (result self) e).

(** [self] after the exit of the remote process has been recorded. *)
Definition with_exit (self : router) (output : string) (returncode : Z) : router :=
  set_result self (record_exit (result self) output returncode).

(** The router after the preflight probe answered [a]. *)
Definition after_preflight (self : router) (a : completed) : router :=
  match a with
  | Exited returncode _ _ =>
      if returncode =? 0 then self else with_error self "Connection test failed"
  | Raised e => with_error self e
  end.

(** The router after the remote command answered [a]. *)
Definition after_command (self : router) (a : completed) : router :=
  match a with
  | Exited returncode out err => with_exit self (out ++ err) returncode
  | Raised e => with_error self e
  end.

(** What [execute_script] returns, the router it leaves and the calls it
    makes, when the calls made before it are [procs]. *)
Definition script_outcome (P : platform) (self : router) (keep_script : bool)
           (script : string) (procs : list call) : bool * router * list call :=
  let upload := upload_call P self script in
  let chmod := chmod_call P self script in
  let exec := exec_call P self script in
  let cleanup := cleanup_call P self script in
  match subprocess_run P procs upload with
  | Raised e => (false, with_error self e, [upload])
  | Exited scp_code _ _ =>
      if negb (scp_code =? 0) then (false, self, [upload])
      else
        match subprocess_run P (procs ++ [upload])%list chmod with
        | Raised e => (false, with_error self e, [upload; chmod])
        | Exited _ _ _ =>
            match subprocess_run P (procs ++ [upload; chmod])%list exec with
            | Raised e => (false, with_error self e, [upload; chmod; exec])
            | Exited returncode out err =>
                let self := with_exit self (out ++ err) returncode in
                if keep_script then (returncode =? 0, self, [upload; chmod; exec])
                else
                  match subprocess_run P (procs ++ [upload; chmod; exec])%list cleanup with
                  | Raised e =>
                      (false, with_error self e, [upload; chmod; exec; cleanup])
                  | Exited _ _ _ =>
                      (returncode =? 0, self, [upload; chmod; exec; cleanup])
                  end
            end
        end
  end.

(** The audit files [save_output_file] writes. *)
Definition saved_files (P : platform) (self : router) : list audit_file :=
  if save_output self then
    match mkdir_error P (audit_dir self), output_file_name P self with
    | None, inl output_file =>
        match write_error P (audit_dir self) output_file with
        | None => [mkAuditFile (audit_dir self) output_file (result self)]
        | Some _ => []
        end
    | _, _ => []
    end
  else [].

(** What [run] returns, the router it leaves, the calls it makes and the
    audit files it writes, when the calls made before it are [procs]. *)
Definition run_outcome (P : platform) (self : router) (keep_script : bool)
           (procs : list call) : bool * router * list call * list audit_file :=
  let probe := subprocess_run P procs (preflight_call self) in
  let self1 := after_preflight self probe in
  if negb (passed probe) then
    (false, self1, [preflight_call self], saved_files P self1)
  else if truthy (command self) then
    let a := subprocess_run P (procs ++ [preflight_call self])%list (command_call self) in
    let self2 := after_command self a in
    (passed a, self2, [preflight_call self; command_call self], saved_files P self2)
  else
    match script self with
    | VStr script =>
        if truthy (VStr script) then
          match script_outcome P self keep_script script
                               (procs ++ [preflight_call self])%list with
          | (success, self2, calls) =>
              (success, self2, preflight_call self :: calls, saved_files P self2)
          end
        else (false, self, [preflight_call self], [])
    | VNone => (false, self, [preflight_call self], [])
    end.

End RouterTrace.

(* ================================================================== *)
(** * Further vocabulary and example inputs                            *)
(* ================================================================== *)

(** A selector [ip_network] rejects (host bits set), a route without a
    ["network"] key, and tables holding them. *)
Definition malformed_entry : dict := entry "10.0.0.1/8" "jumpX".

Definition keyless_entry : dict := [("via", VStr "jumpY")].

Definition direct_selector (route : dict) : bool :=
  is_str (get route "network") "direct".

(** What [find_route] gives once its loop has fallen through with the
    fallback [d]. *)
Definition fallback_result (d : value) (target_ip : string) (w : world) :
  outcome value * world :=
  if truthy d then (Ret d, w) else (Exit 1, no_route_reported target_ip w).



(** The chain [list_routes] shows for a route: its ["via"], or the empty
    string when the key is missing. *)
Definition listed_via (route : dict) : value := get_default route "via" (VStr "").

(** The probe [list_routes] sends for one route: none for a ["direct"]
    chain, otherwise one to the first hop of the chain. *)
Definition route_probe (route : dict) : list call :=
  match listed_via route with
  | VNone => []
  | VStr chain =>
      if String.eqb chain "direct" then []
      else [SSHRouter.probe_command (first_piece (split "," chain))]
  end.

Definition probed_hops (routes : list dict) : list call := flat_map route_probe routes.

(** A route whose ["via"] is present and [null]. *)
Definition null_via_entry : dict := [("network", VStr "10.0.0.0/8"); ("via", VNone)].

(** A platform that serves the table [routes], resolves [localhost], and
    answers its processes from [answers]. *)
Definition served_platform (routes : list dict) (answers : list completed) : platform :=
  example_platform (JsonObject (Some routes)) localhost_dns (scripted answers).

(** The router list mode builds over the table [routes] when [localhost]
    is routed through the fallback. *)
Definition listing_router (routes : list dict) : SSHRouter.router :=
  SSHRouter.mkRouter "routes.json" "dummy@localhost" VNone VNone VNone true
    "./audit" "20240101-120000" routes "127.0.0.1" (VStr "bastion")
    "./audit/127.0.0.1"
    (mkResult "ssh_router" "2024-01-01T12:00:00" (VStr "bastion")
              "dummy@localhost" "127.0.0.1" VNone VNone "ops@workstation"
              false "" [] None None).

(** The same platform seen from a process with another pid. *)
Definition with_pid (P : platform) (pid : Z) : platform :=
  mkPlatform (load_json P) (ip_addr P) (ip_net P) (ip_address P) (ip_network P)
             (net_contains P) (gethostbyname P) (subprocess_run P) pid
             (path_name P) (path_stem P) (mkdir_error P) (write_error P)
             (help_text P) (now_stamp P) (now_iso P) (executed_by P).

(** Every character of [s] is whitespace. *)
Fixpoint all_space (s : string) : bool :=
  match s with
  | EmptyString => true
  | String c s' => is_space c && all_space s'
  end.

(** Routers for a command and for a script, routed through [jumpA], with
    saving enabled. *)
Definition command_router : SSHRouter.router :=
  example_router (VStr "jumpA") (VStr "uptime") VNone VNone true.

Definition script_router : SSHRouter.router :=
  example_router (VStr "jumpA") VNone (VStr "ops/deploy.sh") VNone true.

(** A command router that was also given a script. *)
Definition both_router : SSHRouter.router :=
  example_router (VStr "jumpA") (VStr "uptime") (VStr "ops/deploy.sh") VNone true.

(** Answers of the processes of a run: [ok] exits with 0. *)
Definition ok : completed := Exited 0 "ok" "".
Definition refused : completed := Exited 255 "" "ssh: connect to host: refused".
Definition timed_out : completed := Raised "Command timed out after 300 seconds".

(** Platforms whose processes answer as a failed upload, a timed-out
    script and a finished script need. *)
Definition upload_failing_platform : platform :=
  scripted_platform [ok; Exited 1 "" "scp: lost connection"].

Definition script_timeout_platform : platform :=
  scripted_platform [ok; ok; ok; timed_out].

Definition script_failing_platform : platform :=
  scripted_platform [ok; ok; ok; Exited 2 "step 1" "step 2 failed"; refused].

Definition cleanup_raising_platform : platform :=
  scripted_platform [ok; ok; ok; ok; Raised "ssh: cannot fork"].

Module ExecutorTrace.
Import SSHJumpExecutor.

(** The calls of an executor run, as the methods build them. *)
Definition target_ip_call (ssh_key : value) (jump_hosts target_host : string) : call :=
  mkCall (build_ssh_command ssh_key jump_hosts target_host
            (ArgList [VStr "hostname -I | awk '{print $1}'"])) (Some 10).

Definition preflight_call (self : executor) : call :=
  mkCall (ssh_command self (ArgList [VStr "echo 'Connection successful'"])) (Some 10).

Definition command_call (self : executor) : call :=
  mkCall (ssh_command self (ArgList [command self])) (Some 300).

Definition upload_call (P : platform) (self : executor) (script : string) : call :=
  mkCall (scp_command self script (remote_script_path P script)) None.

Definition chmod_call (P : platform) (self : executor) (script : string) : call :=
  mkCall (ssh_command self (ArgList [VStr ("chmod +x " ++ remote_script_path P script)]))
         None.

Definition exec_call (P : platform) (self : executor) (script : string) : call :=
  mkCall (ssh_command self (ArgList [VStr (remote_script_path P script)])) (Some 300).

Definition cleanup_call (P : platform) (self : executor) (script : string) : call :=
  mkCall (ssh_command self (ArgList [VStr ("rm -f " ++ remote_script_path P script)]))
         None.

Definition with_error (self : executor) (e : string) : executor :=
  set_result self (append_error (result self) e).

Definition with_exit (self : executor) (output : string) (returncode : Z) : executor :=
  set_result self (record_exit (result self) output returncode).

(** [self] after a script has exited: its exit and its remote path. *)
Definition with_script_exit (self : executor) (output : string) (returncode : Z)
           (remote_script : string) : executor :=
  set_result self
    (record_remote_script (record_exit (result self) output returncode) remote_script).

Definition after_preflight (self : executor) (a : completed) : executor :=
  match a with
  | Exited returncode _ err =>
      if returncode =? 0 then self
      else with_error self ("Connection test failed: " ++ err)
  | Raised e => with_error self e
  end.

Definition after_command (self : executor) (a : completed) : executor :=
  match a with
  | Exited returncode out err => with_exit self (out ++ err) returncode
  | Raised e => with_error self e
  end.

(** What [execute_script] returns, the executor it leaves and the calls it
    makes, when the calls made before it are [procs]. *)
Definition script_outcome (P : platform) (self : executor) (keep_script : bool)
           (script : string) (procs : list call) : bool * executor * list call :=
  let upload := upload_call P self script in
  let chmod := chmod_call P self script in
  let exec := exec_call P self script in
  let cleanup := cleanup_call P self script in
  match subprocess_run P procs upload with
  | Raised e => (false, with_error self e, [upload])
  | Exited scp_code _ scp_err =>
      if negb (scp_code =? 0) then
        (false, with_error self ("Upload failed: " ++ scp_err), [upload])
      else
        match subprocess_run P (procs ++ [upload])%list chmod with
        | Raised e => (false, with_error self e, [upload; chmod])
        | Exited _ _ _ =>
            match subprocess_run P (procs ++ [upload; chmod])%list exec with
            | Raised e => (false, with_error self e, [upload; chmod; exec])
            | Exited returncode out err =>
                let self :=
                  with_script_exit self (out ++ err) returncode
                                   (remote_script_path P script) in
                if keep_script then (returncode =? 0, self, [upload; chmod; exec])
                else
                  match subprocess_run P (procs ++ [upload; chmod; exec])%list cleanup with
                  | Raised e =>
                      (false, with_error self e, [upload; chmod; exec; cleanup])
                  | Exited _ _ _ =>
                      (returncode =? 0, self, [upload; chmod; exec; cleanup])
                  end
            end
        end
  end.

Definition saved_files (P : platform) (self : executor) : list audit_file :=
  if save_output self then
    match mkdir_error P (audit_dir self), output_file_name P self with
    | None, inl output_file =>
        match write_error P (audit_dir self) output_file with
        | None => [mkAuditFile (audit_dir self) output_file (result self)]
        | Some _ => []
        end
    | _, _ => []
    end
  else [].

(** What [run] returns, the executor it leaves, the calls it makes and the
    audit files it writes, when the calls made before it are [procs]. *)
Definition run_outcome (P : platform) (self : executor) (keep_script : bool)
           (procs : list call) : bool * executor * list call * list audit_file :=
  let probe := subprocess_run P procs (preflight_call self) in
  let self1 := after_preflight self probe in
  if negb (passed probe) then
    (false, self1, [preflight_call self], saved_files P self1)
  else if truthy (command self) then
    let a := subprocess_run P (procs ++ [preflight_call self])%list (command_call self) in
    let self2 := after_command self a in
    (passed a, self2, [preflight_call self; command_call self], saved_files P self2)
  else
    match script self with
    | VStr script =>
        if truthy (VStr script) then
          match script_outcome P self keep_script script
                               (procs ++ [preflight_call self])%list with
          | (success, self2, calls) =>
              (success, self2, preflight_call self :: calls, saved_files P self2)
          end
        else (false, self, [preflight_call self], [])
    | VNone => (false, self, [preflight_call self], [])
    end.

End ExecutorTrace.

(** An executor as [__init__] leaves it, jumping through [jumps]. *)
Definition example_executor (jumps : string) (command script : value)
           (save_output : bool) : SSHJumpExecutor.executor :=
  SSHJumpExecutor.mkExecutor jumps "admin@10.1.2.3" command script VNone
    save_output "./audit" "20240101-120000" "10.1.2.3" "./audit/10.1.2.3"
    (mkResult "ssh_jump_exec" "2024-01-01T12:00:00" (VStr jumps) "admin@10.1.2.3"
              "10.1.2.3" command script "ops@workstation" false "" [] None None).

Definition script_executor : SSHJumpExecutor.executor :=
  example_executor "bastion1,bastion2" VNone (VStr "ops/deploy.sh") true.

(** The lookup of the target address did not give one: the process
    raised, exited with a non-zero code, or printed nothing. *)
Definition lookup_failed (a : completed) : bool :=
  match a with
  | Exited returncode out _ => negb ((returncode =? 0) && negb (String.eqb out ""))
  | Raised _ => true
  end.

(* ================================================================== *)
(** * Splitting                                                        *)
(* ================================================================== *)

Lemma split_not_nil sep s : split sep s <> [].
Proof.
  destruct s as [|c s]; simpl; [discriminate|].
  destruct (Ascii.eqb c sep); [discriminate|].
  destruct (split sep s); discriminate.
Qed.

Lemma split_no_sep sep s : has_char sep s = false -> split sep s = [s].
Proof.
  induction s as [|c s IH]; simpl; intros H; [reflexivity|].
  apply orb_false_iff in H as [Hc Hs].
  rewrite Hc, (IH Hs). reflexivity.
Qed.

(** The first piece is what precedes the first separator. *)
Lemma first_piece_split sep h rest :
  has_char sep h = false ->
  first_piece (split sep (h ++ String sep rest)) = h.
Proof.
  induction h as [|c h IH]; simpl; intros H.
  - rewrite Ascii.eqb_refl. reflexivity.
  - apply orb_false_iff in H as [Hc Hh].
    rewrite Hc. specialize (IH Hh).
    destruct (split sep (h ++ String sep rest)) as [|p ps] eqn:E.
    + exfalso. exact (split_not_nil _ _ E).
    + simpl in *. now rewrite IH.
Qed.

Lemma last_cons_nonempty (x : string) (l : list string) :
  l <> [] -> last (x :: l) "" = last l "".
Proof. destruct l; [congruence | reflexivity]. Qed.

Lemma has_char_app sep u t : has_char sep (u ++ String sep t) = true.
Proof.
  induction u as [|c u IH]; simpl.
  - now rewrite Ascii.eqb_refl.
  - now rewrite IH, orb_true_r.
Qed.

(** A split in one piece had no separator to split at. *)
Lemma split_single sep s t : split sep s = [t] -> has_char sep s = false.
Proof.
  revert t. induction s as [|c s IH]; simpl; intros t E; [reflexivity|].
  destruct (Ascii.eqb c sep).
  - injection E as _ E. exfalso. exact (split_not_nil _ _ E).
  - destruct (split sep s) as [|p ps] eqn:Es.
    + exfalso. exact (split_not_nil _ _ Es).
    + injection E as _ E. subst ps. exact (IH p eq_refl).
Qed.

(** The last piece is what follows the last separator. *)
Lemma last_piece_split sep u t :
  has_char sep t = false ->
  last_piece (split sep (u ++ String sep t)) = t.
Proof.
  intros Ht. unfold last_piece.
  induction u as [|c u IH]; simpl.
  - rewrite Ascii.eqb_refl, (split_no_sep _ _ Ht). reflexivity.
  - destruct (Ascii.eqb c sep).
    + rewrite last_cons_nonempty by apply split_not_nil. exact IH.
    + destruct (split sep (u ++ String sep t)) as [|p ps] eqn:E.
      * exfalso. exact (split_not_nil _ _ E).
      * destruct ps as [|q qs]; [|exact IH].
        apply split_single in E. rewrite has_char_app in E. discriminate.
Qed.

(* ================================================================== *)
(** * Route resolution                                                 *)
(* ================================================================== *)

Section RouteResolution.

Variable P : platform.
Variable target_ip : string.

Lemma loop_step_no_match route rest d :
  no_match P target_ip route ->
  SSHRouter.find_route_loop P target_ip (route :: rest) d =
  SSHRouter.find_route_loop P target_ip rest
    (if is_default route then get route "via" else d).
Proof.
  unfold no_match, is_sentinel, is_default. simpl.
  destruct (is_str (get route "network") "default"); [reflexivity|].
  destruct (is_str (get route "network") "direct"); [reflexivity|].
  simpl. intros [H|H]; [discriminate|]. now rewrite H.
Qed.

Lemma loop_skips_prefix before rest d :
  (forall r, In r before -> no_match P target_ip r) ->
  SSHRouter.find_route_loop P target_ip (before ++ rest) d =
  SSHRouter.find_route_loop P target_ip rest (fallback_after before d).
Proof.
  revert d. induction before as [|r before IH]; intros d H; [reflexivity|].
  change ((r :: before) ++ rest)%list with (r :: (before ++ rest))%list.
  rewrite loop_step_no_match by (apply H; now left).
  rewrite IH by (intros r' Hr'; apply H; now right).
  reflexivity.
Qed.

Lemma loop_falls_through routes d :
  (forall r, In r routes -> no_match P target_ip r) ->
  SSHRouter.find_route_loop P target_ip routes d =
  SSHRouter.Fallthrough (fallback_after routes d).
Proof.
  intros H. rewrite <- (app_nil_r routes) at 1.
  now rewrite loop_skips_prefix.
Qed.

Lemma loop_returns_match route rest d :
  is_sentinel route = false ->
  SSHRouter.ip_in_network P target_ip (get route "network") = true ->
  SSHRouter.find_route_loop P target_ip (route :: rest) d =
  SSHRouter.Returned (get route "via").
Proof.
  unfold is_sentinel. intros Hs Hin. simpl.
  apply orb_false_iff in Hs as [-> ->]. now rewrite Hin.
Qed.

Lemma fallback_without_default routes d :
  (forall r, In r routes -> is_default r = false) ->
  fallback_after routes d = d.
Proof.
  revert d. induction routes as [|r routes IH]; intros d H; [reflexivity|].
  simpl. rewrite (H r) by now left.
  apply IH. intros r' Hr'. apply H. now right.
Qed.

Lemma fallback_last_default before route after d :
  is_default route = true ->
  (forall r, In r after -> is_default r = false) ->
  fallback_after (before ++ route :: after) d = get route "via".
Proof.
  intros Hd Hafter. unfold fallback_after.
  rewrite fold_left_app. simpl. rewrite Hd.
  now apply fallback_without_default.
Qed.

(** What [find_route] does once the loop has fallen through with [d]. *)
Lemma find_route_fallthrough routes d w :
  SSHRouter.find_route_loop P target_ip routes VNone = SSHRouter.Fallthrough d ->
  SSHRouter.find_route P routes target_ip w =
  if truthy d then (Ret d, w) else (Exit 1, no_route_reported target_ip w).
Proof.
  intros H. unfold SSHRouter.find_route. rewrite H.
  destruct (truthy d); reflexivity.
Qed.

End RouteResolution.

(** [sys.exit] inside the constructor ends [__init__]. *)
Lemma init_exits_with_find_route P routes_file routes target_host
      command script ssh_key save_output output_dir code w w' :
  load_json P routes_file = JsonObject (Some routes) ->
  SSHRouter.find_route P routes (SSHRouter.extract_ip P target_host) w = (Exit code, w') ->
  SSHRouter.init P routes_file target_host command script ssh_key save_output output_dir w
  = (Exit code, w').
Proof.
  intros Hload Hfind. unfold SSHRouter.init, SSHRouter.load_routes, bind.
  rewrite Hload. unfold ret at 1. now rewrite Hfind.
Qed.

(** C1. For every target IP and route table, [find_route] returns the
    [via] of the first route, in declared order, whose selector is a CIDR
    block containing the IP.  Routes whose selector is ["default"] or
    ["direct"] are never match candidates, whatever the containment test
    would say of them; entries after the first match, overlapping or more
    specific, play no role. *)
Theorem find_route_first_cidr_match :
  forall (P : platform) (target_ip : string)
         (before : list dict) (route : dict) (after : list dict) (w : world),
    (forall r, In r before ->
       is_sentinel r = true
       \/ SSHRouter.ip_in_network P target_ip (get r "network") = false) ->
    is_sentinel route = false ->
    SSHRouter.ip_in_network P target_ip (get route "network") = true ->
    SSHRouter.find_route P (before ++ route :: after) target_ip w
    = (Ret (get route "via"), w).
Proof.
  intros P target_ip before route after w Hbefore Hs Hin.
  unfold SSHRouter.find_route.
  rewrite (loop_skips_prefix P target_ip before (route :: after) VNone Hbefore).
  now rewrite loop_returns_match.
Qed.

Lemma find_route_first_cidr_match_witness :
  SSHRouter.ip_in_network quiet_platform "10.1.2.3" (VStr "10.1.0.0/16") = true
  /\ SSHRouter.find_route quiet_platform overlapping_routes "10.1.2.3" empty_world
     = (Ret (VStr "jumpA"), empty_world).
Proof.
  split; [reflexivity|].
  apply (find_route_first_cidr_match quiet_platform "10.1.2.3"
           [entry "default" "bastion"; entry "direct" "direct";
            entry "172.16.0.0/12" "jumpC"]
           (entry "10.0.0.0/8" "jumpA")
           [entry "10.1.0.0/16" "jumpB"] empty_world).
  - intros r [<-|[<-|[<-|[]]]]; [left|left|right]; reflexivity.
  - reflexivity.
  - reflexivity.
Defined.

(** C2, as stated, fails on a table whose last ["default"] entry has an
    empty chain: resolution exits instead of returning that chain. *)
Lemma default_route_rule_counterexample :
  ~ default_route_rule quiet_platform empty_default_routes "192.168.1.1".
Proof.
  intros H.
  assert (Hno : forall r, In r empty_default_routes ->
                          no_match quiet_platform "192.168.1.1" r).
  { intros r [<-|[<-|[]]]; [right|left]; reflexivity. }
  destruct (H Hno empty_world) as [Hlast _].
  specialize (Hlast [entry "10.0.0.0/8" "jumpA"] (entry "default" "") []
                    eq_refl eq_refl (fun r (Hr : In r []) => match Hr with end)).
  vm_compute in Hlast. discriminate.
Qed.

(** C2, amended. For every target IP and route table in which no CIDR
    entry contains the IP: [find_route] returns the [via] of the
    last-declared ["default"] entry when that [via] is a non-empty string;
    when that [via] is empty or missing, or when the table has no
    ["default"] entry, it prints the error and exits with code 1.  In
    every case no process has been started and no file written. *)
Theorem find_route_default_fallback :
  forall (P : platform) (routes : list dict) (target_ip : string) (w : world),
    (forall r, In r routes -> no_match P target_ip r) ->
    (forall before route after,
        routes = (before ++ route :: after)%list ->
        is_default route = true ->
        (forall r, In r after -> is_default r = false) ->
        SSHRouter.find_route P routes target_ip w
        = if truthy (get route "via") then (Ret (get route "via"), w)
          else (Exit 1, no_route_reported target_ip w))
    /\ ((forall r, In r routes -> is_default r = false) ->
        SSHRouter.find_route P routes target_ip w
        = (Exit 1, no_route_reported target_ip w))
    /\ w_procs (snd (SSHRouter.find_route P routes target_ip w)) = w_procs w
    /\ w_files (snd (SSHRouter.find_route P routes target_ip w)) = w_files w.
Proof.
  intros P routes target_ip w Hno.
  pose proof (loop_falls_through P target_ip routes VNone Hno) as Hloop.
  repeat split.
  - intros before route after -> Hd Hafter.
    rewrite (fallback_last_default before route after VNone Hd Hafter) in Hloop.
    exact (find_route_fallthrough P target_ip _ _ w Hloop).
  - intros Hnone.
    rewrite (fallback_without_default routes VNone Hnone) in Hloop.
    exact (find_route_fallthrough P target_ip _ _ w Hloop).
  - rewrite (find_route_fallthrough P target_ip _ _ w Hloop).
    destruct (truthy _); reflexivity.
  - rewrite (find_route_fallthrough P target_ip _ _ w Hloop).
    destruct (truthy _); reflexivity.
Qed.

Lemma find_route_default_fallback_witness :
  (forall r, In r scenario_routes -> no_match quiet_platform "192.168.1.1" r)
  /\ SSHRouter.find_route quiet_platform scenario_routes "192.168.1.1" empty_world
     = (Ret (VStr "bastion"), empty_world).
Proof.
  assert (Hno : forall r, In r scenario_routes ->
                          no_match quiet_platform "192.168.1.1" r).
  { intros r [<-|[<-|[]]]; [right|left]; reflexivity. }
  split; [exact Hno|].
  exact (proj1 (find_route_default_fallback quiet_platform scenario_routes
                  "192.168.1.1" empty_world Hno)
               [entry "10.0.0.0/8" "jumpA"] (entry "default" "bastion") []
               eq_refl eq_refl (fun r (Hr : In r []) => match Hr with end)).
Defined.

(* ================================================================== *)
(** * Address resolution                                               *)
(* ================================================================== *)

(** The token [extract_ip] keeps of a target [user@host:port]. *)
Lemma host_token user host port :
  has_char "@" host = false ->
  has_char ":" host = false ->
  has_char "@" port = false ->
  forall target,
    (target = host
     \/ target = user ++ "@" ++ host
     \/ target = host ++ ":" ++ port
     \/ target = user ++ "@" ++ host ++ ":" ++ port) ->
    first_piece (split ":" (last_piece (split "@" target))) = host.
Proof.
  intros Hat Hcolon Hport target Htarget.
  assert (Hhp : has_char "@" (host ++ ":" ++ port) = false).
  { clear -Hat Hport. induction host as [|c h IH]; simpl in *.
    - exact Hport.
    - apply orb_false_iff in Hat as [Hc Hh]. now rewrite Hc, IH. }
  destruct Htarget as [ -> | [ -> | [ -> | -> ] ] ].
  - rewrite (split_no_sep _ _ Hat).
    change (last_piece [host]) with host.
    now rewrite (split_no_sep _ _ Hcolon).
  - change (user ++ "@" ++ host) with (user ++ String "@" host).
    rewrite (last_piece_split _ _ _ Hat).
    now rewrite (split_no_sep _ _ Hcolon).
  - rewrite (split_no_sep _ _ Hhp).
    change (last_piece [host ++ ":" ++ port]) with (host ++ String ":" port).
    now apply first_piece_split.
  - change (user ++ "@" ++ host ++ ":" ++ port)
      with (user ++ String "@" (host ++ ":" ++ port)).
    rewrite (last_piece_split _ _ _ Hhp).
    change (host ++ ":" ++ port) with (host ++ String ":" port).
    now apply first_piece_split.
Qed.

(** C3. For every target [user@host[:port]] (the [user@] prefix and the
    [:port] suffix each optional), [extract_ip] works on the token [host]:
    it returns it as it is when it parses as a literal IP address;
    otherwise it returns what DNS resolution gives; and when resolution
    fails it returns the token itself.  Being a total function, it always
    returns. *)
Theorem extract_ip_of_target :
  forall (P : platform) (user host port target : string),
    has_char "@" host = false ->
    has_char ":" host = false ->
    has_char "@" port = false ->
    (target = host
     \/ target = user ++ "@" ++ host
     \/ target = host ++ ":" ++ port
     \/ target = user ++ "@" ++ host ++ ":" ++ port) ->
    (ip_address P host <> None -> SSHRouter.extract_ip P target = host)
    /\ (forall ip, ip_address P host = None -> gethostbyname P host = Some ip ->
                   SSHRouter.extract_ip P target = ip)
    /\ (ip_address P host = None -> gethostbyname P host = None ->
        SSHRouter.extract_ip P target = host).
Proof.
  intros P user host port target Hat Hcolon Hport Htarget.
  unfold SSHRouter.extract_ip.
  rewrite (host_token user host port Hat Hcolon Hport target Htarget).
  repeat split.
  - intros Hip. destruct (ip_address P host); [reflexivity | congruence].
  - intros ip -> ->. reflexivity.
  - intros -> ->. reflexivity.
Qed.

Lemma extract_ip_of_target_witness :
  SSHRouter.extract_ip quiet_platform "admin@10.1.2.3:2222" = "10.1.2.3"
  /\ SSHRouter.extract_ip listing_platform "dummy@localhost" = "127.0.0.1"
  /\ SSHRouter.extract_ip quiet_platform "admin@db.internal:22" = "db.internal".
Proof.
  split; [|split].
  - destruct (extract_ip_of_target quiet_platform "admin" "10.1.2.3" "2222"
                "admin@10.1.2.3:2222" eq_refl eq_refl eq_refl
                (or_intror (or_intror (or_intror eq_refl)))) as [Hliteral _].
    apply Hliteral. discriminate.
  - destruct (extract_ip_of_target listing_platform "dummy" "localhost" ""
                "dummy@localhost" eq_refl eq_refl eq_refl
                (or_intror (or_introl eq_refl))) as [_ [Hdns _]].
    apply Hdns; reflexivity.
  - destruct (extract_ip_of_target quiet_platform "admin" "db.internal" "22"
                "admin@db.internal:22" eq_refl eq_refl eq_refl
                (or_intror (or_intror (or_intror eq_refl)))) as [_ [_ Hfail]].
    apply Hfail; reflexivity.
Defined.

(* ================================================================== *)
(** * List mode                                                        *)
(* ================================================================== *)

(** Without a match and without a fallback, [find_route] exits. *)
Lemma find_route_exits P routes target_ip w :
  (forall r, In r routes -> no_match P target_ip r) ->
  (forall r, In r routes -> is_default r = false) ->
  SSHRouter.find_route P routes target_ip w = (Exit 1, no_route_reported target_ip w).
Proof.
  intros Hno Hdefault.
  pose proof (loop_falls_through P target_ip routes VNone Hno) as Hloop.
  rewrite (fallback_without_default routes VNone Hdefault) in Hloop.
  exact (find_route_fallthrough P target_ip _ _ w Hloop).
Qed.

(** C10. List mode builds the router for the fixed target
    ['dummy@localhost'], and the constructor resolves a route for it.  So
    for every route table with no ["default"] entry and no CIDR entry
    containing the address obtained for [localhost], list mode prints the
    no-route error and exits with code 1: no route is listed and no hop is
    probed. *)
Theorem list_mode_requires_route :
  forall (P : platform) (args : arguments) (routes : list dict) (w : world),
    arg_list args = true ->
    load_json P (arg_routes args) = JsonObject (Some routes) ->
    (forall r, In r routes -> is_default r = false) ->
    (forall r, In r routes ->
       no_match P (SSHRouter.extract_ip P "dummy@localhost") r) ->
    SSHRouter.main P args w
    = (Exit 1, no_route_reported (SSHRouter.extract_ip P "dummy@localhost") w).
Proof.
  intros P args routes w Hlist Hload Hdefault Hno.
  unfold SSHRouter.main. rewrite Hlist. unfold bind at 1.
  rewrite (init_exits_with_find_route P _ routes "dummy@localhost" _ _ _ _ _ 1 w
             (no_route_reported (SSHRouter.extract_ip P "dummy@localhost") w) Hload).
  - reflexivity.
  - now apply find_route_exits.
Qed.

Lemma list_mode_requires_route_witness :
  SSHRouter.extract_ip listing_platform "dummy@localhost" = "127.0.0.1"
  /\ SSHRouter.main listing_platform list_arguments empty_world
     = (Exit 1, mkWorld ["Error: No route found for 127.0.0.1"] [] [] []).
Proof.
  split; [reflexivity|].
  apply (list_mode_requires_route listing_platform list_arguments
           no_default_routes empty_world eq_refl eq_refl).
  - intros r [<-|[<-|[]]]; reflexivity.
  - intros r [<-|[<-|[]]]; [left|right]; reflexivity.
Defined.

(* ================================================================== *)
(** * The transport command                                            *)
(* ================================================================== *)

(** C4. For every router (resolved chain, identity file or none) and every
    remote command, the command built for the transport, with [use_jump]
    left at its default or set as every caller sets it, is [ssh], the
    identity part, the two fixed options [StrictHostKeyChecking=accept-new]
    and [ConnectTimeout=10], the relay part, the target and the remote
    command.  The relay part is [-J chain] when the chain is not
    ["direct"] and is absent when it is; the identity part is
    [-i identity] when an identity file is configured and is absent when
    none is. *)
Theorem build_ssh_command_options :
  forall (self : SSHRouter.router) (items : list value) (use_jump : bool),
    use_jump = true
    \/ use_jump = negb (is_str (SSHRouter.jump_chain self) "direct") ->
    exists identity relay : list value,
      SSHRouter.build_ssh_command self (ArgList items) use_jump
      = ([VStr "ssh"] ++ identity
         ++ [VStr "-o"; VStr "StrictHostKeyChecking=accept-new";
             VStr "-o"; VStr "ConnectTimeout=10"]
         ++ relay ++ [VStr (SSHRouter.target_host self)] ++ items)%list
      /\ ((is_str (SSHRouter.jump_chain self) "direct" = false
           /\ relay = [VStr "-J"; SSHRouter.jump_chain self])
          \/ (is_str (SSHRouter.jump_chain self) "direct" = true /\ relay = []))
      /\ ((truthy (SSHRouter.ssh_key self) = true
           /\ identity = [VStr "-i"; SSHRouter.ssh_key self])
          \/ (truthy (SSHRouter.ssh_key self) = false /\ identity = [])).
Proof.
  intros self items use_jump Hjump.
  unfold SSHRouter.build_ssh_command.
  assert (Hflag : use_jump && negb (is_str (SSHRouter.jump_chain self) "direct")
                  = negb (is_str (SSHRouter.jump_chain self) "direct")).
  { destruct Hjump as [-> | ->]; [reflexivity | apply andb_diag]. }
  rewrite Hflag.
  destruct (truthy (SSHRouter.ssh_key self)) eqn:Hkey;
    destruct (is_str (SSHRouter.jump_chain self) "direct") eqn:Hdirect; simpl.
  - exists [VStr "-i"; SSHRouter.ssh_key self], []. auto.
  - exists [VStr "-i"; SSHRouter.ssh_key self], [VStr "-J"; SSHRouter.jump_chain self].
    auto.
  - exists [], []. auto.
  - exists [], [VStr "-J"; SSHRouter.jump_chain self]. auto.
Qed.

Lemma build_ssh_command_options_witness :
  SSHRouter.build_ssh_command
    (example_router (VStr "bastion1,bastion2") (VStr "uptime") VNone
                    (VStr "~/.ssh/id_ops") true)
    (ArgList [VStr "uptime"]) true
  = [VStr "ssh"; VStr "-i"; VStr "~/.ssh/id_ops";
     VStr "-o"; VStr "StrictHostKeyChecking=accept-new";
     VStr "-o"; VStr "ConnectTimeout=10";
     VStr "-J"; VStr "bastion1,bastion2";
     VStr "admin@10.1.2.3"; VStr "uptime"]
  /\ SSHRouter.build_ssh_command
       (example_router (VStr "direct") (VStr "uptime") VNone VNone true)
       (ArgList [VStr "uptime"]) false
     = [VStr "ssh";
        VStr "-o"; VStr "StrictHostKeyChecking=accept-new";
        VStr "-o"; VStr "ConnectTimeout=10";
        VStr "admin@10.1.2.3"; VStr "uptime"].
Proof.
  split.
  - destruct (build_ssh_command_options
                (example_router (VStr "bastion1,bastion2") (VStr "uptime") VNone
                                (VStr "~/.ssh/id_ops") true)
                [VStr "uptime"] true (or_introl eq_refl))
      as (identity & relay & Hcmd & [[_ ->] | [Hdirect _]] & [[_ ->] | [Hkey _]]);
      try discriminate.
    exact Hcmd.
  - destruct (build_ssh_command_options
                (example_router (VStr "direct") (VStr "uptime") VNone VNone true)
                [VStr "uptime"] false (or_intror eq_refl))
      as (identity & relay & Hcmd & [[Hdirect _] | [_ ->]] & [[Hkey _] | [_ ->]]);
      try discriminate.
    exact Hcmd.
Defined.

(* ================================================================== *)
(** * Reasoning about effects                                          *)
(* ================================================================== *)

Section Yields.

Context {A B : Type}.

Lemma yields_ret (a : A) procs files :
  yields (ret a) procs files (Ret a) [] [].
Proof.
  intros w <- <-. exists w. now rewrite !app_nil_r.
Qed.

Lemma yields_bind (m : M A) (k : A -> M B) procs files a o c1 c2 f1 f2 :
  yields m procs files (Ret a) c1 f1 ->
  yields (k a) (procs ++ c1)%list (files ++ f1)%list o c2 f2 ->
  yields (bind m k) procs files o (c1 ++ c2)%list (f1 ++ f2)%list.
Proof.
  intros Hm Hk w Hp Hf.
  destruct (Hm w Hp Hf) as (w1 & Em & Hp1 & Hf1).
  destruct (Hk w1 Hp1 Hf1) as (w2 & Ek & Hp2 & Hf2).
  exists w2. unfold bind. rewrite Em, Ek, Hp2, Hf2, !app_assoc. auto.
Qed.

(** A step that neither calls nor writes. *)
Lemma yields_after_quiet (m : M A) (k : A -> M B) procs files a o calls written :
  yields m procs files (Ret a) [] [] ->
  yields (k a) procs files o calls written ->
  yields (bind m k) procs files o calls written.
Proof.
  intros Hm Hk.
  apply (yields_bind m k procs files a o [] calls [] written Hm).
  now rewrite !app_nil_r.
Qed.

End Yields.

Lemma yields_print s procs files : yields (print s) procs files (Ret tt) [] [].
Proof.
  intros w <- <-. eexists. split; [reflexivity|]. simpl. now rewrite !app_nil_r.
Qed.

Lemma yields_eprint s procs files : yields (eprint s) procs files (Ret tt) [] [].
Proof.
  intros w <- <-. eexists. split; [reflexivity|]. simpl. now rewrite !app_nil_r.
Qed.

Lemma yields_when_print b s procs files :
  yields (when b (print s)) procs files (Ret tt) [] [].
Proof. destruct b; [apply yields_print | apply yields_ret]. Qed.

Lemma yields_if_print (b : bool) s1 s2 procs files :
  yields (if b then print s1 else print s2) procs files (Ret tt) [] [].
Proof. destruct b; apply yields_print. Qed.

Lemma yields_run_process P c procs files :
  yields (run_process P c) procs files (Ret (subprocess_run P procs c)) [c] [].
Proof.
  intros w <- <-. eexists. split; [reflexivity|]. simpl. now rewrite app_nil_r.
Qed.

Lemma yields_write_file dir name record procs files :
  yields (write_file dir name record) procs files (Ret tt) []
         [mkAuditFile dir name record].
Proof.
  intros w <- <-. eexists. split; [reflexivity|]. simpl. now rewrite app_nil_r.
Qed.

(** A call followed by the rest of the method. *)
Lemma yields_call {B} P c (k : completed -> M B) procs files o calls written :
  yields (k (subprocess_run P procs c)) (procs ++ [c])%list files o calls written ->
  yields (bind (run_process P c) k) procs files o (c :: calls) written.
Proof.
  intros Hk.
  pose proof (yields_bind (run_process P c) k procs files _ o [c] calls [] written
                (yields_run_process P c procs files)) as H.
  rewrite app_nil_r in H. exact (H Hk).
Qed.

Create HintDb yields.

#[local] Hint Resolve yields_print yields_eprint yields_when_print
  yields_if_print yields_ret : yields.

(** The monad law that flattens a sequence nested on the left. *)
Lemma bind_assoc {A B C} (m : M A) (f : A -> M B) (g : B -> M C) w :
  bind (bind m f) g w = bind m (fun x => bind (f x) g) w.
Proof.
  unfold bind. destruct (m w) as [[a|code|msg] w1]; reflexivity.
Qed.

Lemma yields_assoc {A B C} (m : M A) (f : A -> M B) (g : B -> M C)
      procs files o calls written :
  yields (bind m (fun x => bind (f x) g)) procs files o calls written ->
  yields (bind (bind m f) g) procs files o calls written.
Proof.
  intros H w Hp Hf. rewrite bind_assoc. exact (H w Hp Hf).
Qed.

(** A method whose effect is known, followed by the rest. *)
Lemma yields_then {A B} (m : M A) (k : A -> M B) procs files a o c1 c2 f1 f2
      calls written :
  yields m procs files (Ret a) c1 f1 ->
  calls = (c1 ++ c2)%list ->
  written = (f1 ++ f2)%list ->
  yields (k a) (procs ++ c1)%list (files ++ f1)%list o c2 f2 ->
  yields (bind m k) procs files o calls written.
Proof. intros Hm -> -> Hk. exact (yields_bind m k _ _ _ _ _ _ _ _ Hm Hk). Qed.

Ltac then_step H :=
  eapply (yields_then _ _ _ _ _ _ _ _ _ _ _ _ H);
  [first [reflexivity | symmetry; apply app_nil_r]
  |first [reflexivity | symmetry; apply app_nil_r]
  |cbv beta iota; rewrite ?app_nil_r].

(** Walks through the quiet steps at the head of a method. *)
Ltac quiet_steps :=
  repeat (eapply yields_after_quiet; [solve [auto with yields] | ]).

(** Uses what is known of the answers and of the tests met on the way. *)
Ltac use_known :=
  rewrite <- ?app_assoc; cbn [app];
  repeat match goal with
         | E : subprocess_run ?P ?h ?c = _ |- context [subprocess_run ?P ?h ?c] =>
             rewrite E
         | E : ?b = _ |- context [if ?b then _ else _] => rewrite E
         end;
  cbv beta iota.

(** Walks through a method along the branch the known answers select. *)
Ltac walk :=
  repeat first
         [ apply yields_ret
         | eapply yields_after_quiet; [solve [auto with yields] | ]
         | apply yields_assoc
         | apply yields_call; use_known ].

(* ================================================================== *)
(** * The run of a router, phase by phase                              *)
(* ================================================================== *)

Module RouterRun.
Import SSHRouter RouterTrace.

Section WithPlatform.

Variable P : platform.

Lemma test_connectivity_yields self procs files :
  yields (test_connectivity P self) procs files
         (Ret (passed (subprocess_run P procs (preflight_call self)),
               after_preflight self (subprocess_run P procs (preflight_call self))))
         [preflight_call self] [].
Proof.
  unfold test_connectivity. quiet_steps.
  fold (use_jump self). fold (preflight_call self).
  apply yields_call.
  destruct (subprocess_run P procs (preflight_call self)) as [rc out err|e]; simpl.
  - destruct (rc =? 0); quiet_steps; apply yields_ret.
  - quiet_steps; apply yields_ret.
Qed.

Lemma execute_command_yields self procs files :
  yields (execute_command P self) procs files
         (Ret (passed (subprocess_run P procs (command_call self)),
               after_command self (subprocess_run P procs (command_call self))))
         [command_call self] [].
Proof.
  unfold execute_command. quiet_steps.
  fold (use_jump self). fold (command_call self).
  apply yields_call.
  destruct (subprocess_run P procs (command_call self)) as [rc out err|e]; simpl.
  - quiet_steps. apply yields_ret.
  - quiet_steps. apply yields_ret.
Qed.

Lemma on_exception_yields self e procs files :
  yields (on_exception self e) procs files (Ret (false, with_error self e)) [] [].
Proof. unfold on_exception. quiet_steps. apply yields_ret. Qed.

Lemma execute_script_yields self keep_script script procs files :
  SSHRouter.script self = VStr script ->
  yields (execute_script P self keep_script) procs files
         (Ret (fst (script_outcome P self keep_script script procs)))
         (snd (script_outcome P self keep_script script procs)) [].
Proof.
  intros Hscript. unfold execute_script, script_outcome, on_exception.
  quiet_steps. rewrite Hscript.
  fold (use_jump self).
  fold (upload_call P self script) (chmod_call P self script)
       (exec_call P self script).
  destruct (subprocess_run P procs (upload_call P self script))
    as [scp_code scp_out scp_err|e] eqn:Eupload; cbn [fst snd]; [|walk].
  destruct (negb (scp_code =? 0)) eqn:Escp; cbn [fst snd]; [walk|].
  destruct (subprocess_run P (procs ++ [upload_call P self script])%list
                           (chmod_call P self script))
    as [? ? ?|e] eqn:Echmod; cbn [fst snd]; [|walk].
  destruct (subprocess_run P (procs ++ [upload_call P self script;
                                        chmod_call P self script])%list
                           (exec_call P self script))
    as [rc out err|e] eqn:Eexec; cbn [fst snd]; [|walk].
  destruct keep_script; cbn [fst snd negb].
  - destruct (rc =? 0) eqn:Erc; walk.
  - destruct (subprocess_run P (procs ++ [upload_call P self script;
                                          chmod_call P self script;
                                          exec_call P self script])%list
                             (cleanup_call P self script))
      as [? ? ?|e] eqn:Ecleanup; cbn [fst snd];
      destruct (rc =? 0) eqn:Erc; walk.
Qed.

Lemma save_output_file_yields self procs files :
  yields (save_output_file P self) procs files (Ret tt) [] (saved_files P self).
Proof.
  unfold save_output_file, saved_files.
  destruct (save_output self); cbn [negb]; [|apply yields_ret].
  destruct (mkdir_error P (audit_dir self)); [apply yields_eprint|].
  destruct (output_file_name P self) as [output_file|e]; [|apply yields_eprint].
  destruct (write_error P (audit_dir self) output_file); [apply yields_eprint|].
  apply (yields_bind _ _ procs files tt (Ret tt) [] [] _ []
           (yields_write_file _ _ _ procs files)).
  apply yields_print.
Qed.

(** [run] always returns, and what it returns, the calls it makes and the
    files it writes are those of [run_outcome]. *)
Lemma run_yields self keep_script procs files :
  yields (run P self keep_script) procs files
         (Ret (fst (fst (fst (run_outcome P self keep_script procs))),
               snd (fst (fst (run_outcome P self keep_script procs)))))
         (snd (fst (run_outcome P self keep_script procs)))
         (snd (run_outcome P self keep_script procs)).
Proof.
  unfold run, run_outcome. quiet_steps.
  pose proof (test_connectivity_yields self procs files) as Hprobe.
  set (probe := subprocess_run P procs (preflight_call self)) in *.
  assert (Hself1 : passed probe = true -> after_preflight self probe = self).
  { unfold after_preflight. destruct probe as [rc ? ?|e]; simpl; [|discriminate].
    now intros ->. }
  destruct (passed probe) eqn:Epassed; cbn [negb fst snd].
  2: { then_step Hprobe.
       then_step (save_output_file_yields (after_preflight self probe)
                    (procs ++ [preflight_call self])%list files).
       apply yields_ret. }
  rewrite (Hself1 eq_refl) in Hprobe. clear Hself1.
  destruct (truthy (command self)) eqn:Hcommand; cbn [fst snd].
  - then_step Hprobe. rewrite Hcommand.
    apply yields_assoc.
    then_step (execute_command_yields self (procs ++ [preflight_call self])%list files).
    eapply yields_after_quiet; [apply yields_ret|].
    cbv beta iota.
    then_step (save_output_file_yields
                 (after_command self
                    (subprocess_run P (procs ++ [preflight_call self])%list
                                    (command_call self)))
                 ((procs ++ [preflight_call self]) ++ [command_call self])%list files).
    walk.
  - destruct (script self) as [|script] eqn:Hscript.
    + cbn [truthy fst snd]. then_step Hprobe.
      rewrite Hcommand, Hscript. cbn [truthy].
      eapply yields_after_quiet; [apply yields_ret|]. walk.
    + destruct (truthy (VStr script)) eqn:Htruthy; cbn [fst snd].
      * pose proof (execute_script_yields self keep_script script
                      (procs ++ [preflight_call self])%list files Hscript) as Hrun.
        destruct (script_outcome P self keep_script script
                                 (procs ++ [preflight_call self])%list)
          as [[success self2] calls].
        cbn [fst snd] in *.
        then_step Hprobe. rewrite Hcommand, Hscript, Htruthy.
        apply yields_assoc.
        then_step Hrun.
        eapply yields_after_quiet; [apply yields_ret|].
        cbv beta iota.
        then_step (save_output_file_yields self2
                     ((procs ++ [preflight_call self]) ++ calls)%list files).
        walk.
      * then_step Hprobe. rewrite Hcommand, Hscript, Htruthy.
        eapply yields_after_quiet; [apply yields_ret|]. walk.
Qed.

(** The same, of a run started in a given world. *)
Lemma run_from self keep_script w :
  exists w',
    run P self keep_script w
    = (Ret (fst (fst (fst (run_outcome P self keep_script (w_procs w)))),
            snd (fst (fst (run_outcome P self keep_script (w_procs w))))), w')
    /\ w_procs w' = (w_procs w ++ snd (fst (run_outcome P self keep_script (w_procs w))))%list
    /\ w_files w' = (w_files w ++ snd (run_outcome P self keep_script (w_procs w)))%list.
Proof. exact (run_yields self keep_script (w_procs w) (w_files w) w eq_refl eq_refl). Qed.

(** ** The outcome of a run, path by path *)

Section Outcome.

Variables (self : router) (keep_script : bool) (procs : list call).

Let probe := subprocess_run P procs (preflight_call self).

Lemma outcome_preflight_failed :
  passed probe = false ->
  run_outcome P self keep_script procs
  = (false, after_preflight self probe, [preflight_call self],
     saved_files P (after_preflight self probe)).
Proof. unfold run_outcome. fold probe. now intros ->. Qed.

Lemma outcome_command :
  passed probe = true ->
  truthy (command self) = true ->
  run_outcome P self keep_script procs
  = (passed (subprocess_run P (procs ++ [preflight_call self])%list (command_call self)),
     after_command self
       (subprocess_run P (procs ++ [preflight_call self])%list (command_call self)),
     [preflight_call self; command_call self],
     saved_files P
       (after_command self
          (subprocess_run P (procs ++ [preflight_call self])%list (command_call self)))).
Proof. unfold run_outcome. fold probe. now intros -> ->. Qed.

Lemma outcome_script s :
  passed probe = true ->
  truthy (command self) = false ->
  script self = VStr s ->
  truthy (VStr s) = true ->
  run_outcome P self keep_script procs
  = (fst (fst (script_outcome P self keep_script s (procs ++ [preflight_call self])%list)),
     snd (fst (script_outcome P self keep_script s (procs ++ [preflight_call self])%list)),
     preflight_call self
       :: snd (script_outcome P self keep_script s (procs ++ [preflight_call self])%list),
     saved_files P
       (snd (fst (script_outcome P self keep_script s
                                 (procs ++ [preflight_call self])%list)))).
Proof.
  unfold run_outcome. fold probe. intros -> -> -> ->. cbn [negb].
  now destruct (script_outcome _ _ _ _ _) as [[? ?] ?].
Qed.

Lemma outcome_no_payload :
  passed probe = true ->
  truthy (command self) = false ->
  truthy (script self) = false ->
  run_outcome P self keep_script procs = (false, self, [preflight_call self], []).
Proof.
  unfold run_outcome. fold probe. intros -> -> Hscript. cbn [negb].
  destruct (script self) as [|s]; [reflexivity|]. now rewrite Hscript.
Qed.

End Outcome.

(** The result fields a recorded error leaves alone, and those a recorded
    exit sets. *)
Lemma with_error_fields self e :
  res_success (result (with_error self e)) = res_success (result self)
  /\ res_exit_code (result (with_error self e)) = res_exit_code (result self)
  /\ res_remote_script_path (result (with_error self e))
     = res_remote_script_path (result self)
  /\ res_errors (result (with_error self e)) = (res_errors (result self) ++ [e])%list.
Proof. repeat split. Qed.

Lemma with_exit_fields self output rc :
  res_success (result (with_exit self output rc)) = (rc =? 0)
  /\ res_exit_code (result (with_exit self output rc)) = Some rc
  /\ res_remote_script_path (result (with_exit self output rc))
     = res_remote_script_path (result self)
  /\ res_errors (result (with_exit self output rc)) = res_errors (result self).
Proof. repeat split. Qed.

Lemma after_preflight_fields self a :
  res_success (result (after_preflight self a)) = res_success (result self)
  /\ res_exit_code (result (after_preflight self a)) = res_exit_code (result self)
  /\ res_remote_script_path (result (after_preflight self a))
     = res_remote_script_path (result self).
Proof.
  destruct a as [rc ? ?|e]; cbn [after_preflight]; [destruct (rc =? 0)|];
    repeat split.
Qed.

End WithPlatform.
End RouterRun.

(* ================================================================== *)
(** * Route resolution: entries that play no role                      *)
(* ================================================================== *)

Lemma loop_ignores_direct P target_ip routes d :
  SSHRouter.find_route_loop P target_ip
    (filter (fun r => negb (direct_selector r)) routes) d
  = SSHRouter.find_route_loop P target_ip routes d.
Proof.
  revert d. induction routes as [|r routes IH]; intros d; [reflexivity|].
  unfold direct_selector in *. cbn [filter].
  destruct (is_str (get r "network") "direct") eqn:Hdirect; cbn [negb].
  - rewrite IH. cbn [SSHRouter.find_route_loop]. rewrite Hdirect.
    destruct (is_str (get r "network") "default") eqn:Hdefault; [|reflexivity].
    destruct (get r "network") as [|s]; [discriminate|].
    cbn [is_str] in *. apply String.eqb_eq in Hdirect, Hdefault. congruence.
  - cbn [SSHRouter.find_route_loop]. rewrite Hdirect.
    destruct (is_str (get r "network") "default"); [apply IH|].
    destruct (SSHRouter.ip_in_network P target_ip (get r "network"));
      [reflexivity | apply IH].
Qed.

(** X1. Entries whose selector is ["direct"] play no role in route
    resolution: removing them all from the table changes neither the
    chain [find_route] returns nor whether it exits. *)
Theorem find_route_ignores_direct_entries :
  forall (P : platform) (routes : list dict) (target_ip : string) (w : world),
    SSHRouter.find_route P (filter (fun r => negb (direct_selector r)) routes)
                         target_ip w
    = SSHRouter.find_route P routes target_ip w.
Proof.
  intros P routes target_ip w. unfold SSHRouter.find_route.
  now rewrite loop_ignores_direct.
Qed.

(** X2. A target that does not parse as an IP address (a host name DNS
    could not resolve) matches no CIDR entry: resolution gives the [via]
    of the last ["default"] entry when it is a non-empty string, and exits
    with code 1 otherwise, whatever CIDR entries the table holds. *)
Theorem find_route_unparsed_target :
  forall (P : platform) (routes : list dict) (target_ip : string) (w : world),
    ip_address P target_ip = None ->
    SSHRouter.find_route P routes target_ip w
    = fallback_result (fallback_after routes VNone) target_ip w.
Proof.
  intros P routes target_ip w Hip.
  apply find_route_fallthrough, loop_falls_through.
  intros r _. right. unfold SSHRouter.ip_in_network. now rewrite Hip.
Qed.

Lemma find_route_unparsed_target_witness :
  ip_address quiet_platform "db.internal" = None
  /\ SSHRouter.find_route quiet_platform overlapping_routes "db.internal" empty_world
     = (Ret (VStr "bastion"), empty_world).
Proof.
  split; [reflexivity|].
  exact (find_route_unparsed_target quiet_platform overlapping_routes
           "db.internal" empty_world eq_refl).
Defined.

Lemma loop_skips_rejected P target_ip before r after d :
  is_sentinel r = false ->
  ip_network P (get r "network") = None ->
  SSHRouter.find_route_loop P target_ip (before ++ r :: after) d
  = SSHRouter.find_route_loop P target_ip (before ++ after) d.
Proof.
  intros Hsentinel Hnet.
  assert (Hskip : forall d', SSHRouter.find_route_loop P target_ip (r :: after) d'
                             = SSHRouter.find_route_loop P target_ip after d').
  { intros d'. rewrite loop_step_no_match.
    - unfold is_default. unfold is_sentinel in Hsentinel.
      apply orb_false_iff in Hsentinel as [-> _]. reflexivity.
    - right. unfold SSHRouter.ip_in_network. rewrite Hnet.
      now destruct (ip_address P target_ip). }
  revert d. induction before as [|b before IH]; intros d; [apply Hskip|].
  cbn [app SSHRouter.find_route_loop].
  destruct (is_str (get b "network") "default"); [apply IH|].
  destruct (is_str (get b "network") "direct"); [apply IH|].
  destruct (SSHRouter.ip_in_network P target_ip (get b "network"));
    [reflexivity | apply IH].
Qed.

(** X3. An entry whose selector is neither sentinel and is rejected by
    [ip_network] (malformed, host bits set, or the key missing) is skipped
    without error: resolution behaves as if the entry were not in the
    table. *)
Theorem find_route_skips_rejected_selector :
  forall (P : platform) (before : list dict) (r : dict) (after : list dict)
         (target_ip : string) (w : world),
    is_sentinel r = false ->
    ip_network P (get r "network") = None ->
    SSHRouter.find_route P (before ++ r :: after) target_ip w
    = SSHRouter.find_route P (before ++ after) target_ip w.
Proof.
  intros P before r after target_ip w Hsentinel Hnet.
  unfold SSHRouter.find_route. now rewrite loop_skips_rejected.
Qed.

Lemma find_route_skips_rejected_selector_witness :
  ip_network quiet_platform (get malformed_entry "network") = None
  /\ ip_network quiet_platform (get keyless_entry "network") = None
  /\ SSHRouter.find_route quiet_platform
       (malformed_entry :: scenario_routes) "10.0.0.1" empty_world
     = SSHRouter.find_route quiet_platform scenario_routes "10.0.0.1" empty_world
  /\ SSHRouter.find_route quiet_platform
       ([entry "172.16.0.0/12" "jumpC"] ++ keyless_entry :: scenario_routes)
       "10.0.0.1" empty_world
     = SSHRouter.find_route quiet_platform
         ([entry "172.16.0.0/12" "jumpC"] ++ scenario_routes) "10.0.0.1" empty_world.
Proof.
  split; [reflexivity|]. split; [reflexivity|]. split.
  - exact (find_route_skips_rejected_selector quiet_platform [] malformed_entry
             scenario_routes "10.0.0.1" empty_world eq_refl eq_refl).
  - exact (find_route_skips_rejected_selector quiet_platform
             [entry "172.16.0.0/12" "jumpC"] keyless_entry
             scenario_routes "10.0.0.1" empty_world eq_refl eq_refl).
Defined.

(* ================================================================== *)
(** * Configuration errors                                             *)
(* ================================================================== *)



(* ================================================================== *)
(** * Listing the routes                                               *)
(* ================================================================== *)

Lemma yields_crash {A} msg procs files :
  yields (@crash A msg) procs files (Crash msg) [] [].
Proof. intros w <- <-. exists w. now rewrite !app_nil_r. Qed.

Lemma yields_bind_crash {A B} (m : M A) (k : A -> M B) procs files msg calls written :
  yields m procs files (Crash msg) calls written ->
  yields (bind m k) procs files (Crash msg) calls written.
Proof.
  intros Hm w Hp Hf. destruct (Hm w Hp Hf) as (w1 & Em & Hp1 & Hf1).
  exists w1. unfold bind. now rewrite Em.
Qed.

Section Listing.

Variable P : platform.

(** The part of the loop body of [list_routes] that shows the chain. *)
Lemma chain_block_yields (jump_chain : value) (chain : string) procs files :
  jump_chain = VStr chain ->
  yields
    (if is_str jump_chain "direct" then print "  Jump Chain: DIRECT (no jump host)"
     else
       print ("  Jump Chain: " ++ str_value jump_chain) ;;
       match jump_chain with
       | VNone => crash "AttributeError: 'NoneType' object has no attribute 'split'"
       | VStr chain =>
           let first_hop := first_piece (split "," chain) in
           print "  Testing... " ;;
           r <- run_process P (SSHRouter.probe_command first_hop) ;;
           match r with
           | Exited returncode _ _ =>
               if returncode =? 0 then print "✓ Reachable"
               else print "✗ Unreachable"
           | Raised _ => print "✗ Unreachable"
           end
       end)
    procs files (Ret tt)
    (if String.eqb chain "direct" then []
     else [SSHRouter.probe_command (first_piece (split "," chain))]) [].
Proof.
  intros ->. cbn [is_str].
  destruct (String.eqb chain "direct"); [apply yields_print|].
  quiet_steps. cbv zeta. quiet_steps.
  destruct (subprocess_run P procs
              (SSHRouter.probe_command (first_piece (split "," chain))))
    as [rc ? ?|e] eqn:Eprobe.
  - apply yields_call. use_known. apply yields_if_print.
  - apply yields_call. use_known. apply yields_print.
Qed.

Lemma list_routes_loop_yields routes :
  (forall r, In r routes -> listed_via r <> VNone) ->
  forall idx procs files,
    yields (SSHRouter.list_routes_loop P idx routes) procs files (Ret tt)
           (probed_hops routes) [].
Proof.
  induction routes as [|r routes IH]; intros Hvia idx procs files;
    [apply yields_ret|].
  cbn [SSHRouter.list_routes_loop probed_hops flat_map]. cbv zeta.
  quiet_steps.
  destruct (listed_via r) as [|chain] eqn:Hchain;
    [exfalso; exact (Hvia r (or_introl eq_refl) Hchain)|].
  pose proof (chain_block_yields _ chain procs files Hchain) as Hblock.
  unfold route_probe. rewrite Hchain. unfold listed_via in Hchain.
  then_step Hblock.
  quiet_steps. apply IH. intros r' Hr'. apply Hvia. now right.
Qed.

Lemma list_routes_loop_crashes before r after :
  (forall r', In r' before -> listed_via r' <> VNone) ->
  listed_via r = VNone ->
  forall idx procs files,
    yields (SSHRouter.list_routes_loop P idx (before ++ r :: after)) procs files
           (Crash "AttributeError: 'NoneType' object has no attribute 'split'")
           (probed_hops before) [].
Proof.
  intros Hbefore Hnull.
  induction before as [|b before IH]; intros idx procs files.
  - cbn [app SSHRouter.list_routes_loop probed_hops flat_map]. cbv zeta.
    quiet_steps. unfold listed_via in Hnull. rewrite Hnull. cbn [is_str].
    apply yields_bind_crash. quiet_steps. apply yields_crash.
  - cbn [app SSHRouter.list_routes_loop probed_hops flat_map]. cbv zeta.
    quiet_steps.
    destruct (listed_via b) as [|chain] eqn:Hchain;
      [exfalso; exact (Hbefore b (or_introl eq_refl) Hchain)|].
    pose proof (chain_block_yields _ chain procs files Hchain) as Hblock.
    unfold route_probe. rewrite Hchain. unfold listed_via in Hchain.
    then_step Hblock.
    quiet_steps. apply IH. intros r' Hr'. apply Hbefore. now right.
Qed.

End Listing.

Lemma list_routes_yields P self outcome calls :
  (forall idx procs files,
      yields (SSHRouter.list_routes_loop P idx (SSHRouter.routes self)) procs files
             outcome calls []) ->
  forall procs files,
    yields (SSHRouter.list_routes P self) procs files
           (match outcome with
            | Ret _ => Ret tt
            | Exit code => Exit code
            | Crash msg => Crash msg
            end) calls [].
Proof.
  intros Hloop procs files. unfold SSHRouter.list_routes. quiet_steps.
  destruct outcome as [[]|code|msg].
  - then_step (Hloop 1 procs files). quiet_steps. apply yields_print.
  - intros w Hp Hf. destruct (Hloop 1 procs files w Hp Hf) as (w1 & E & H1 & H2).
    exists w1. unfold bind. now rewrite E.
  - apply yields_bind_crash, Hloop.
Qed.

(** X5. When no route has a [null] chain, [list_routes] completes
    whatever the probes answer, and the processes it starts are exactly
    one reachability probe per route whose chain is not ["direct"], sent
    to the first hop of that chain, in table order; a route without a
    ["via"] key is probed with an empty hop name.  No file is written. *)
Theorem list_routes_probes_first_hops :
  forall (P : platform) (self : SSHRouter.router) (w : world),
    (forall r, In r (SSHRouter.routes self) -> listed_via r <> VNone) ->
    exists w',
      SSHRouter.list_routes P self w = (Ret tt, w')
      /\ w_procs w' = (w_procs w ++ probed_hops (SSHRouter.routes self))%list
      /\ w_files w' = w_files w.
Proof.
  intros P self w Hvia.
  pose proof (list_routes_yields P self (Ret tt) _
                (list_routes_loop_yields P _ Hvia) (w_procs w) (w_files w)
                w eq_refl eq_refl) as (w' & Hrun & Hprocs & Hfiles).
  exists w'. rewrite app_nil_r in Hfiles. auto.
Qed.

Lemma list_routes_probes_first_hops_witness :
  exists w',
    SSHRouter.list_routes (scripted_platform [Exited 255 "" "refused"; Raised "timeout"])
      (example_router (VStr "direct") VNone VNone VNone true)
      empty_world = (Ret tt, w')
    /\ w_procs w' = [SSHRouter.probe_command "jumpA"; SSHRouter.probe_command "bastion"]
    /\ w_files w' = [].
Proof.
  apply (list_routes_probes_first_hops
           (scripted_platform [Exited 255 "" "refused"; Raised "timeout"])
           (example_router (VStr "direct") VNone VNone VNone true) empty_world).
  intros r [<-|[<-|[]]]; discriminate.
Defined.

(** X6. A route whose ["via"] is present and [null] makes [list_routes]
    fail with an uncaught [AttributeError] when the loop reaches it: the
    routes before it have been probed, the routes after it are neither
    shown nor probed. *)
Theorem list_routes_crashes_on_null_via :
  forall (P : platform) (self : SSHRouter.router)
         (before : list dict) (r : dict) (after : list dict) (w : world),
    SSHRouter.routes self = (before ++ r :: after)%list ->
    (forall r', In r' before -> listed_via r' <> VNone) ->
    listed_via r = VNone ->
    exists w',
      SSHRouter.list_routes P self w
      = (Crash "AttributeError: 'NoneType' object has no attribute 'split'", w')
      /\ w_procs w' = (w_procs w ++ probed_hops before)%list
      /\ w_files w' = w_files w.
Proof.
  intros P self before r after w Hroutes Hbefore Hnull.
  assert (Hloop : forall idx procs files,
             yields (SSHRouter.list_routes_loop P idx (SSHRouter.routes self))
                    procs files
                    (Crash "AttributeError: 'NoneType' object has no attribute 'split'")
                    (probed_hops before) []).
  { rewrite Hroutes. now apply list_routes_loop_crashes. }
  pose proof (list_routes_yields P self _ _ Hloop (w_procs w) (w_files w)
                w eq_refl eq_refl) as (w' & Hrun & Hprocs & Hfiles).
  exists w'. rewrite app_nil_r in Hfiles. auto.
Qed.

Lemma list_routes_crashes_on_null_via_witness :
  exists w',
    SSHRouter.list_routes (scripted_platform [Exited 0 "ok" ""])
      (listing_router [entry "172.16.0.0/12" "jumpC,jumpD"; null_via_entry;
                       entry "default" "bastion"])
      empty_world
    = (Crash "AttributeError: 'NoneType' object has no attribute 'split'", w')
    /\ w_procs w' = [SSHRouter.probe_command "jumpC"]
    /\ w_files w' = [].
Proof.
  apply (list_routes_crashes_on_null_via (scripted_platform [Exited 0 "ok" ""])
           (listing_router [entry "172.16.0.0/12" "jumpC,jumpD"; null_via_entry;
                            entry "default" "bastion"])
           [entry "172.16.0.0/12" "jumpC,jumpD"] null_via_entry
           [entry "default" "bastion"] empty_world eq_refl).
  - intros r [<-|[]]; discriminate.
  - reflexivity.
Defined.

(** On success [find_route] leaves the world as it found it. *)
Lemma find_route_returns P routes target_ip w chain :
  fst (SSHRouter.find_route P routes target_ip w) = Ret chain ->
  SSHRouter.find_route P routes target_ip w = (Ret chain, w).
Proof.
  unfold SSHRouter.find_route.
  destruct (SSHRouter.find_route_loop P target_ip routes VNone) as [v|d].
  - cbn. now intros [= ->].
  - destruct (truthy d); cbn; [now intros [= ->] | discriminate].
Qed.

(** [__init__] when the table loads and a route is found. *)
Lemma init_returns P routes_file routes target_host command script ssh_key
      save_output output_dir chain w :
  load_json P routes_file = JsonObject (Some routes) ->
  fst (SSHRouter.find_route P routes (SSHRouter.extract_ip P target_host) w) = Ret chain ->
  SSHRouter.init P routes_file target_host command script ssh_key save_output
                 output_dir w
  = (Ret (SSHRouter.mkRouter routes_file target_host command script ssh_key
            save_output output_dir (now_stamp P) routes
            (SSHRouter.extract_ip P target_host) chain
            (output_dir ++ "/" ++ SSHRouter.extract_ip P target_host)
            (mkResult "ssh_router" (now_iso P) chain target_host
                      (SSHRouter.extract_ip P target_host) command script
                      (executed_by P) false "" [] None None)), w).
Proof.
  intros Hload Hfind. apply find_route_returns in Hfind.
  unfold SSHRouter.init, SSHRouter.load_routes, bind. rewrite Hload.
  unfold ret at 1. now rewrite Hfind.
Qed.

(** X7. In list mode, when the table loads, none of its chains is [null]
    and a route is found for [localhost], [main] exits with code 0 after
    probing the first hop of every non-direct route, whatever the probes
    answer: unreachable hops do not change the exit code. *)
Theorem list_mode_exits_zero :
  forall (P : platform) (args : arguments) (routes : list dict) (chain : value)
         (w : world),
    arg_list args = true ->
    load_json P (arg_routes args) = JsonObject (Some routes) ->
    fst (SSHRouter.find_route P routes (SSHRouter.extract_ip P "dummy@localhost") w)
    = Ret chain ->
    (forall r, In r routes -> listed_via r <> VNone) ->
    exists w',
      SSHRouter.main P args w = (Exit 0, w')
      /\ w_procs w' = (w_procs w ++ probed_hops routes)%list
      /\ w_files w' = w_files w.
Proof.
  intros P args routes chain w Hlist Hload Hfind Hvia.
  unfold SSHRouter.main. rewrite Hlist. unfold bind at 1.
  rewrite (init_returns P _ routes "dummy@localhost" _ _ _ _ _ chain w Hload Hfind).
  match goal with
  | |- context [SSHRouter.list_routes P ?r] => set (self := r)
  end.
  pose proof (list_routes_yields P self (Ret tt) _
                (list_routes_loop_yields P routes Hvia) (w_procs w) (w_files w)
                w eq_refl eq_refl) as (w' & Hrun & Hprocs & Hfiles).
  exists w'. rewrite app_nil_r in Hfiles.
  unfold bind. rewrite Hrun. auto.
Qed.

Lemma list_mode_exits_zero_witness :
  exists w',
    SSHRouter.main (served_platform scenario_routes [Exited 255 "" "no route to host"])
                   list_arguments empty_world = (Exit 0, w')
    /\ w_procs w' = [SSHRouter.probe_command "jumpA"; SSHRouter.probe_command "bastion"]
    /\ w_files w' = [].
Proof.
  apply (list_mode_exits_zero
           (served_platform scenario_routes [Exited 255 "" "no route to host"])
           list_arguments scenario_routes (VStr "bastion") empty_world
           eq_refl eq_refl eq_refl).
  intros r [<-|[<-|[]]]; discriminate.
Defined.

(* ================================================================== *)
(** * The remote script path                                           *)
(* ================================================================== *)

Lemma str_int_injective n m : str_int n = str_int m -> n = m.
Proof.
  unfold str_int. intros H.
  assert (Hnonnil : forall z, Z.to_int z <> Decimal.Pos Decimal.Nil
                              /\ Z.to_int z <> Decimal.Neg Decimal.Nil).
  { intros [|p|p]; cbn; split; try discriminate;
      intros [= Hp]; exact (DecimalPos.Unsigned.to_uint_nonnil p Hp). }
  apply DecimalZ.to_int_inj.
  assert (Hsome : Some (Z.to_int n) = Some (Z.to_int m)).
  { rewrite <- (NilZero.isi (Z.to_int n)), <- (NilZero.isi (Z.to_int m));
      try apply Hnonnil.
    now rewrite H. }
  now injection Hsome.
Qed.

Lemma append_cancel_l (p a b : string) : p ++ a = p ++ b -> a = b.
Proof.
  induction p as [|c p IH]; cbn; [trivial|]. intros [= H]. exact (IH H).
Qed.

(** X8. Two processes with different process ids that upload the same
    script give it different remote paths, so concurrent runs against one
    target do not overwrite each other's upload. *)
Theorem remote_script_path_distinct_per_process :
  forall (P : platform) (pid : Z) (script : string),
    pid <> getpid P ->
    SSHRouter.remote_script_path (with_pid P pid) script
    <> SSHRouter.remote_script_path P script.
Proof.
  intros P pid script Hpid Hpath. apply Hpid.
  unfold SSHRouter.remote_script_path in Hpath. cbn [path_name getpid with_pid] in Hpath.
  apply str_int_injective.
  apply (append_cancel_l "."), (append_cancel_l (path_name P script)),
    (append_cancel_l "/tmp/").
  exact Hpath.
Qed.

Lemma remote_script_path_distinct_per_process_witness :
  SSHRouter.remote_script_path (with_pid quiet_platform 4243) "ops/deploy.sh"
  <> SSHRouter.remote_script_path quiet_platform "ops/deploy.sh".
Proof.
  apply (remote_script_path_distinct_per_process quiet_platform 4243 "ops/deploy.sh").
  discriminate.
Defined.

(* ================================================================== *)
(** * Saving the audit record                                          *)
(* ================================================================== *)

Lemma split_ws_from_all_space s :
  all_space s = true -> split_ws_from s None = [].
Proof.
  induction s as [|c s IH]; cbn; [reflexivity|].
  intros H. apply andb_true_iff in H as [-> Hs]. exact (IH Hs).
Qed.





(** X11. A command made of whitespace only is truthy, so the run takes it
    as its command, yet [save_output_file] writes no audit record for it:
    computing the file name raises [IndexError], which is reported on
    [stderr] and dropped. *)
Theorem blank_command_is_not_saved :
  forall (P : platform) (self : SSHRouter.router) (text : string) (w : world),
    SSHRouter.command self = VStr text ->
    text <> "" ->
    all_space text = true ->
    truthy (SSHRouter.command self) = true
    /\ exists w',
         SSHRouter.save_output_file P self w = (Ret tt, w')
         /\ w_procs w' = w_procs w
         /\ w_files w' = w_files w.
Proof.
  intros P self text w Hcommand Hnonempty Hspace.
  assert (Htruthy : truthy (SSHRouter.command self) = true).
  { rewrite Hcommand. cbn. destruct text; [congruence | reflexivity]. }
  split; [exact Htruthy|].
  destruct (RouterRun.save_output_file_yields P self (w_procs w) (w_files w)
              w eq_refl eq_refl) as (w' & Hrun & Hprocs & Hfiles).
  exists w'. rewrite app_nil_r in Hprocs.
  split; [exact Hrun|]. split; [exact Hprocs|].
  rewrite Hfiles. unfold RouterTrace.saved_files, SSHRouter.output_file_name.
  rewrite Htruthy, Hcommand. cbn [str_value]. unfold split_ws.
  rewrite (split_ws_from_all_space text Hspace).
  destruct (SSHRouter.save_output self), (mkdir_error P (SSHRouter.audit_dir self));
    now rewrite app_nil_r.
Qed.

Lemma blank_command_is_not_saved_witness :
  exists w',
    SSHRouter.save_output_file quiet_platform
      (example_router (VStr "direct") (VStr "   ") VNone VNone true) empty_world
    = (Ret tt, w')
    /\ w_procs w' = []
    /\ w_files w' = [].
Proof.
  refine (proj2 (blank_command_is_not_saved quiet_platform
                   (example_router (VStr "direct") (VStr "   ") VNone VNone true)
                   "   " empty_world eq_refl _ eq_refl)).
  discriminate.
Defined.

(* ================================================================== *)
(** * The run of a router: what each path does                         *)
(* ================================================================== *)

Section RouterPaths.
Import SSHRouter RouterTrace.

Variable P : platform.

(** ** [execute_script], path by path *)

Section ScriptPaths.

Variables (self : router) (keep_script : bool) (s : string) (procs : list call).

Lemma script_upload_failed rc out err :
  subprocess_run P procs (upload_call P self s) = Exited rc out err ->
  rc <> 0 ->
  script_outcome P self keep_script s procs = (false, self, [upload_call P self s]).
Proof.
  intros Hupload Hrc. unfold script_outcome. rewrite Hupload.
  apply Z.eqb_neq in Hrc. now rewrite Hrc.
Qed.

Lemma script_exec_raised out err rc2 out2 err2 e :
  subprocess_run P procs (upload_call P self s) = Exited 0 out err ->
  subprocess_run P (procs ++ [upload_call P self s])%list (chmod_call P self s)
  = Exited rc2 out2 err2 ->
  subprocess_run P (procs ++ [upload_call P self s; chmod_call P self s])%list
                 (exec_call P self s) = Raised e ->
  script_outcome P self keep_script s procs
  = (false, with_error self e,
     [upload_call P self s; chmod_call P self s; exec_call P self s]).
Proof.
  intros Hupload Hchmod Hexec. unfold script_outcome.
  now rewrite Hupload, Hchmod, Hexec.
Qed.

Lemma script_returned out err rc2 out2 err2 rc out3 err3 :
  subprocess_run P procs (upload_call P self s) = Exited 0 out err ->
  subprocess_run P (procs ++ [upload_call P self s])%list (chmod_call P self s)
  = Exited rc2 out2 err2 ->
  subprocess_run P (procs ++ [upload_call P self s; chmod_call P self s])%list
                 (exec_call P self s) = Exited rc out3 err3 ->
  (keep_script = true
   \/ exists rc4 out4 err4,
        subprocess_run P (procs ++ [upload_call P self s; chmod_call P self s;
                                    exec_call P self s])%list
                       (cleanup_call P self s) = Exited rc4 out4 err4) ->
  script_outcome P self keep_script s procs
  = (rc =? 0, with_exit self (out3 ++ err3) rc,
     ([upload_call P self s; chmod_call P self s; exec_call P self s]
      ++ if keep_script then [] else [cleanup_call P self s])%list).
Proof.
  intros Hupload Hchmod Hexec Hcleanup. unfold script_outcome.
  rewrite Hupload, Hchmod, Hexec. cbn [Z.eqb negb].
  destruct keep_script; [reflexivity|].
  destruct Hcleanup as [|(rc4 & out4 & err4 & ->)]; [discriminate | reflexivity].
Qed.

Lemma script_cleanup_raised out err rc2 out2 err2 rc out3 err3 e :
  subprocess_run P procs (upload_call P self s) = Exited 0 out err ->
  subprocess_run P (procs ++ [upload_call P self s])%list (chmod_call P self s)
  = Exited rc2 out2 err2 ->
  subprocess_run P (procs ++ [upload_call P self s; chmod_call P self s])%list
                 (exec_call P self s) = Exited rc out3 err3 ->
  keep_script = false ->
  subprocess_run P (procs ++ [upload_call P self s; chmod_call P self s;
                              exec_call P self s])%list
                 (cleanup_call P self s) = Raised e ->
  script_outcome P self keep_script s procs
  = (false, with_error (with_exit self (out3 ++ err3) rc) e,
     [upload_call P self s; chmod_call P self s; exec_call P self s;
      cleanup_call P self s]).
Proof.
  intros Hupload Hchmod Hexec -> Hcleanup. unfold script_outcome.
  now rewrite Hupload, Hchmod, Hexec, Hcleanup.
Qed.

End ScriptPaths.

(** A script run whose preflight passed, in terms of [script_outcome]. *)
Lemma run_script_from self keep_script s w b self2 calls :
  passed (subprocess_run P (w_procs w) (preflight_call self)) = true ->
  truthy (command self) = false ->
  script self = VStr s ->
  truthy (VStr s) = true ->
  script_outcome P self keep_script s (w_procs w ++ [preflight_call self])%list
  = (b, self2, calls) ->
  exists w',
    run P self keep_script w = (Ret (b, self2), w')
    /\ w_procs w' = (w_procs w ++ preflight_call self :: calls)%list
    /\ w_files w' = (w_files w ++ saved_files P self2)%list.
Proof.
  intros Hprobe Hcommand Hscript Htruthy Houtcome.
  destruct (RouterRun.run_from P self keep_script w) as (w' & Hrun & Hprocs & Hfiles).
  rewrite (RouterRun.outcome_script P self keep_script (w_procs w) s
             Hprobe Hcommand Hscript Htruthy), Houtcome in Hrun, Hprocs, Hfiles.
  exists w'. auto.
Qed.

End RouterPaths.

Section RouterRunTheorems.
Import SSHRouter RouterTrace.

(** X12. When the preflight probe fails (non-zero exit, timeout or any
    other exception), [run] returns [False] having started no process but
    the probe.  Exactly one error is appended to the result, ["Connection
    test failed"] or the text of the exception; [success] and the exit
    code are left as they were; the result is then handed to
    [save_output_file]. *)
Theorem preflight_failure_stops_run :
  forall (P : platform) (self : router) (keep_script : bool) (w : world),
    passed (subprocess_run P (w_procs w) (preflight_call self)) = false ->
    exists self' w',
      run P self keep_script w = (Ret (false, self'), w')
      /\ w_procs w' = (w_procs w ++ [preflight_call self])%list
      /\ w_files w' = (w_files w ++ saved_files P self')%list
      /\ res_errors (result self')
         = (res_errors (result self)
            ++ [match subprocess_run P (w_procs w) (preflight_call self) with
                | Exited _ _ _ => "Connection test failed"
                | Raised e => e
                end])%list
      /\ res_success (result self') = res_success (result self)
      /\ res_exit_code (result self') = res_exit_code (result self).
Proof.
  intros P self keep_script w Hprobe.
  destruct (RouterRun.run_from P self keep_script w) as (w' & Hrun & Hprocs & Hfiles).
  rewrite (RouterRun.outcome_preflight_failed P self keep_script (w_procs w) Hprobe)
    in Hrun, Hprocs, Hfiles.
  cbn [fst snd] in *.
  eexists _, w'. split; [exact Hrun|]. split; [exact Hprocs|]. split; [exact Hfiles|].
  destruct (subprocess_run P (w_procs w) (preflight_call self)) as [rc ? ?|e];
    cbn [passed after_preflight] in *; [rewrite Hprobe|]; repeat split.
Qed.

Lemma preflight_failure_stops_run_witness :
  exists self' w',
    run (scripted_platform [refused]) command_router false empty_world
    = (Ret (false, self'), w')
    /\ w_procs w' = [preflight_call command_router]
    /\ res_errors (result self') = ["Connection test failed"].
Proof.
  destruct (preflight_failure_stops_run (scripted_platform [refused]) command_router
              false empty_world eq_refl)
    as (self' & w' & Hrun & Hprocs & Hfiles & Herrors & _).
  exists self', w'. repeat split; assumption.
Defined.

(** X13. When the preflight passes and a command is given, [run] starts
    exactly two processes, the probe and the command, bounded by 300
    seconds; a script given alongside is never uploaded.  If the command
    exits, its two streams concatenated, its return code and whether that
    code is 0 are recorded and no error is added; if it raises (a timeout
    included), the text of the exception is the one error added and
    [success] stays as it was.  [run] returns whether the command exited
    with 0. *)
Theorem command_run_records_exit :
  forall (P : platform) (self : router) (keep_script : bool) (w : world),
    passed (subprocess_run P (w_procs w) (preflight_call self)) = true ->
    truthy (command self) = true ->
    exists self' w',
      run P self keep_script w
      = (Ret (passed (subprocess_run P (w_procs w ++ [preflight_call self])%list
                                     (command_call self)), self'), w')
      /\ w_procs w' = (w_procs w ++ [preflight_call self; command_call self])%list
      /\ timeout (command_call self) = Some 300
      /\ w_files w' = (w_files w ++ saved_files P self')%list
      /\ match subprocess_run P (w_procs w ++ [preflight_call self])%list
                              (command_call self) with
         | Exited rc out err =>
             res_output (result self') = out ++ err
             /\ res_exit_code (result self') = Some rc
             /\ res_success (result self') = (rc =? 0)
             /\ res_errors (result self') = res_errors (result self)
         | Raised e =>
             res_errors (result self') = (res_errors (result self) ++ [e])%list
             /\ res_success (result self') = res_success (result self)
             /\ res_exit_code (result self') = res_exit_code (result self)
         end.
Proof.
  intros P self keep_script w Hprobe Hcommand.
  destruct (RouterRun.run_from P self keep_script w) as (w' & Hrun & Hprocs & Hfiles).
  rewrite (RouterRun.outcome_command P self keep_script (w_procs w) Hprobe Hcommand)
    in Hrun, Hprocs, Hfiles.
  cbn [fst snd] in *.
  eexists _, w'. split; [exact Hrun|]. split; [exact Hprocs|].
  split; [reflexivity|]. split; [exact Hfiles|].
  destruct (subprocess_run P (w_procs w ++ [preflight_call self])%list
                           (command_call self)); repeat split.
Qed.

Lemma command_run_records_exit_witness :
  exists self' w',
    run (scripted_platform [ok; Exited 3 "out" "err"]) both_router false empty_world
    = (Ret (false, self'), w')
    /\ w_procs w' = [preflight_call both_router; command_call both_router]
    /\ res_output (result self') = "outerr"
    /\ res_exit_code (result self') = Some 3.
Proof.
  destruct (command_run_records_exit (scripted_platform [ok; Exited 3 "out" "err"])
              both_router false empty_world eq_refl eq_refl)
    as (self' & w' & Hrun & Hprocs & _ & _ & Hout & Hcode & _).
  exists self', w'. repeat split; assumption.
Defined.

(** X14. When the upload of the script exits with a non-zero code, [run]
    returns [False] after the probe and the copy: the script is neither
    made executable, nor run, nor removed.  The result is left exactly as
    it was: no error is recorded for the failed upload. *)
Theorem upload_failure_stops_run_silently :
  forall (P : platform) (self : router) (keep_script : bool) (w : world)
         (s : string) (rc : Z) (out err : string),
    passed (subprocess_run P (w_procs w) (preflight_call self)) = true ->
    truthy (command self) = false ->
    script self = VStr s ->
    s <> "" ->
    subprocess_run P (w_procs w ++ [preflight_call self])%list (upload_call P self s)
    = Exited rc out err ->
    rc <> 0 ->
    exists w',
      run P self keep_script w = (Ret (false, self), w')
      /\ w_procs w' = (w_procs w ++ [preflight_call self; upload_call P self s])%list
      /\ w_files w' = (w_files w ++ saved_files P self)%list.
Proof.
  intros P self keep_script w s rc out err Hprobe Hcommand Hscript Hs Hupload Hrc.
  apply (run_script_from P self keep_script s w false self [upload_call P self s]
           Hprobe Hcommand Hscript).
  - cbn. now destruct s.
  - exact (script_upload_failed P self keep_script s _ rc out err Hupload Hrc).
Qed.


Lemma upload_failure_stops_run_silently_witness :
  exists w',
    run upload_failing_platform script_router false empty_world
    = (Ret (false, script_router), w')
    /\ w_procs w' = [preflight_call script_router;
                     upload_call upload_failing_platform script_router "ops/deploy.sh"]
    /\ res_errors (result script_router) = [].
Proof.
  assert (Hprobe : passed (subprocess_run upload_failing_platform (w_procs empty_world)
                                          (preflight_call script_router)) = true)
    by reflexivity.
  assert (Hupload : subprocess_run upload_failing_platform
                      (w_procs empty_world ++ [preflight_call script_router])%list
                      (upload_call upload_failing_platform script_router "ops/deploy.sh")
                    = Exited 1 "" "scp: lost connection")
    by reflexivity.
  assert (Hs : "ops/deploy.sh" <> "") by discriminate.
  assert (Hrc : 1 <> 0) by discriminate.
  destruct (upload_failure_stops_run_silently upload_failing_platform
              script_router false empty_world "ops/deploy.sh" 1 ""
              "scp: lost connection" Hprobe eq_refl eq_refl Hs Hupload Hrc)
    as (w' & Hrun & Hprocs & _).
  exists w'. split; [exact Hrun|]. split; [exact Hprocs | reflexivity].
Defined.

(** X15. When the uploaded script raises while it runs (its 300-second
    timeout included), [run] returns [False] and the text of the exception
    is the one error added to the result; no cleanup is started, even when
    the script was not to be kept, so the uploaded file stays on the
    target. *)
Theorem script_exception_skips_cleanup :
  forall (P : platform) (self : router) (keep_script : bool) (w : world)
         (s : string) (out err : string) (rc2 : Z) (out2 err2 : string) (e : string),
    passed (subprocess_run P (w_procs w) (preflight_call self)) = true ->
    truthy (command self) = false ->
    script self = VStr s ->
    s <> "" ->
    subprocess_run P (w_procs w ++ [preflight_call self])%list (upload_call P self s)
    = Exited 0 out err ->
    subprocess_run P (w_procs w ++ [preflight_call self; upload_call P self s])%list
                   (chmod_call P self s) = Exited rc2 out2 err2 ->
    subprocess_run P (w_procs w ++ [preflight_call self; upload_call P self s;
                                    chmod_call P self s])%list
                   (exec_call P self s) = Raised e ->
    exists self' w',
      run P self keep_script w = (Ret (false, self'), w')
      /\ w_procs w' = (w_procs w ++ [preflight_call self; upload_call P self s;
                                      chmod_call P self s; exec_call P self s])%list
      /\ w_files w' = (w_files w ++ saved_files P self')%list
      /\ res_errors (result self') = (res_errors (result self) ++ [e])%list
      /\ res_success (result self') = res_success (result self)
      /\ res_exit_code (result self') = res_exit_code (result self).
Proof.
  intros P self keep_script w s out err rc2 out2 err2 e
         Hprobe Hcommand Hscript Hs Hupload Hchmod Hexec.
  assert (Htruthy : truthy (VStr s) = true) by (cbn; now destruct s).
  destruct (run_script_from P self keep_script s w false (with_error self e)
              [upload_call P self s; chmod_call P self s; exec_call P self s]
              Hprobe Hcommand Hscript Htruthy) as (w' & Hrun & Hprocs & Hfiles).
  { apply (script_exec_raised P self keep_script s _ out err rc2 out2 err2 e Hupload);
      rewrite <- app_assoc; assumption. }
  exists (with_error self e), w'. repeat split; assumption.
Qed.

Lemma script_exception_skips_cleanup_witness :
  exists self' w',
    run script_timeout_platform script_router false empty_world
    = (Ret (false, self'), w')
    /\ w_procs w' = [preflight_call script_router;
                     upload_call script_timeout_platform script_router "ops/deploy.sh";
                     chmod_call script_timeout_platform script_router "ops/deploy.sh";
                     exec_call script_timeout_platform script_router "ops/deploy.sh"]
    /\ res_errors (result self') = ["Command timed out after 300 seconds"].
Proof.
  assert (Hprobe : passed (subprocess_run script_timeout_platform (w_procs empty_world)
                                          (preflight_call script_router)) = true)
    by reflexivity.
  assert (Hs : "ops/deploy.sh" <> "") by discriminate.
  destruct (script_exception_skips_cleanup script_timeout_platform script_router
              false empty_world "ops/deploy.sh" "ok" "" 0 "ok" ""
              "Command timed out after 300 seconds"
              Hprobe eq_refl eq_refl Hs eq_refl eq_refl eq_refl)
    as (self' & w' & Hrun & Hprocs & _ & Herrors & _).
  exists self', w'. split; [exact Hrun|]. split; [exact Hprocs | exact Herrors].
Defined.

(** X16. When the uploaded script exits, with any return code, its two
    streams concatenated, its return code and whether that code is 0 are
    recorded, and no error is added.  A cleanup that removes the uploaded
    file is the next and last process exactly when the script is not to be
    kept, and its own exit status changes nothing: [run] returns whether
    the script exited with 0. *)
Theorem script_exit_is_recorded_then_cleaned :
  forall (P : platform) (self : router) (keep_script : bool) (w : world)
         (s : string) (out err : string) (rc2 : Z) (out2 err2 : string)
         (rc : Z) (out3 err3 : string),
    passed (subprocess_run P (w_procs w) (preflight_call self)) = true ->
    truthy (command self) = false ->
    script self = VStr s ->
    s <> "" ->
    subprocess_run P (w_procs w ++ [preflight_call self])%list (upload_call P self s)
    = Exited 0 out err ->
    subprocess_run P (w_procs w ++ [preflight_call self; upload_call P self s])%list
                   (chmod_call P self s) = Exited rc2 out2 err2 ->
    subprocess_run P (w_procs w ++ [preflight_call self; upload_call P self s;
                                    chmod_call P self s])%list
                   (exec_call P self s) = Exited rc out3 err3 ->
    (keep_script = true
     \/ exists rc4 out4 err4,
          subprocess_run P (w_procs w ++ [preflight_call self; upload_call P self s;
                                          chmod_call P self s; exec_call P self s])%list
                         (cleanup_call P self s) = Exited rc4 out4 err4) ->
    exists self' w',
      run P self keep_script w = (Ret (rc =? 0, self'), w')
      /\ w_procs w'
         = (w_procs w ++ [preflight_call self; upload_call P self s;
                          chmod_call P self s; exec_call P self s]
                     ++ if keep_script then [] else [cleanup_call P self s])%list
      /\ w_files w' = (w_files w ++ saved_files P self')%list
      /\ res_output (result self') = out3 ++ err3
      /\ res_exit_code (result self') = Some rc
      /\ res_success (result self') = (rc =? 0)
      /\ res_errors (result self') = res_errors (result self).
Proof.
  intros P self keep_script w s out err rc2 out2 err2 rc out3 err3
         Hprobe Hcommand Hscript Hs Hupload Hchmod Hexec Hcleanup.
  assert (Htruthy : truthy (VStr s) = true) by (cbn; now destruct s).
  destruct (run_script_from P self keep_script s w (rc =? 0)
              (with_exit self (out3 ++ err3) rc)
              ([upload_call P self s; chmod_call P self s; exec_call P self s]
               ++ if keep_script then [] else [cleanup_call P self s])%list
              Hprobe Hcommand Hscript Htruthy) as (w' & Hrun & Hprocs & Hfiles).
  { apply (script_returned P self keep_script s _ out err rc2 out2 err2 rc out3 err3
             Hupload); rewrite <- app_assoc; assumption. }
  exists (with_exit self (out3 ++ err3) rc), w'.
  repeat split; assumption.
Qed.

Lemma script_exit_is_recorded_then_cleaned_witness :
  exists self' w',
    run script_failing_platform script_router false empty_world
    = (Ret (false, self'), w')
    /\ w_procs w' = [preflight_call script_router;
                     upload_call script_failing_platform script_router "ops/deploy.sh";
                     chmod_call script_failing_platform script_router "ops/deploy.sh";
                     exec_call script_failing_platform script_router "ops/deploy.sh";
                     cleanup_call script_failing_platform script_router "ops/deploy.sh"]
    /\ res_exit_code (result self') = Some 2
    /\ res_output (result self') = "step 1step 2 failed".
Proof.
  assert (Hprobe : passed (subprocess_run script_failing_platform (w_procs empty_world)
                                          (preflight_call script_router)) = true)
    by reflexivity.
  assert (Hs : "ops/deploy.sh" <> "") by discriminate.
  assert (Hcleanup :
            false = true
            \/ exists rc4 out4 err4,
                 subprocess_run script_failing_platform
                   (w_procs empty_world
                    ++ [preflight_call script_router;
                        upload_call script_failing_platform script_router "ops/deploy.sh";
                        chmod_call script_failing_platform script_router "ops/deploy.sh";
                        exec_call script_failing_platform script_router "ops/deploy.sh"])%list
                   (cleanup_call script_failing_platform script_router "ops/deploy.sh")
                 = Exited rc4 out4 err4).
  { right. exists 255, "", "ssh: connect to host: refused". reflexivity. }
  destruct (script_exit_is_recorded_then_cleaned script_failing_platform script_router
              false empty_world "ops/deploy.sh" "ok" "" 0 "ok" ""
              2 "step 1" "step 2 failed"
              Hprobe eq_refl eq_refl Hs eq_refl eq_refl eq_refl Hcleanup)
    as (self' & w' & Hrun & Hprocs & _ & Hout & Hcode & _).
  exists self', w'. split; [exact Hrun|]. split; [exact Hprocs|].
  split; [exact Hcode | exact Hout].
Defined.

(** X17. When the cleanup itself raises, [run] returns [False] and records
    the exception as an error, although the script has run: the recorded
    exit code and [success] are those of the script, so a script that
    exited with 0 leaves a record with [success] true and a process that
    exits with 1. *)
Theorem cleanup_exception_fails_run :
  forall (P : platform) (self : router) (w : world)
         (s : string) (out err : string) (rc2 : Z) (out2 err2 : string)
         (rc : Z) (out3 err3 : string) (e : string),
    passed (subprocess_run P (w_procs w) (preflight_call self)) = true ->
    truthy (command self) = false ->
    script self = VStr s ->
    s <> "" ->
    subprocess_run P (w_procs w ++ [preflight_call self])%list (upload_call P self s)
    = Exited 0 out err ->
    subprocess_run P (w_procs w ++ [preflight_call self; upload_call P self s])%list
                   (chmod_call P self s) = Exited rc2 out2 err2 ->
    subprocess_run P (w_procs w ++ [preflight_call self; upload_call P self s;
                                    chmod_call P self s])%list
                   (exec_call P self s) = Exited rc out3 err3 ->
    subprocess_run P (w_procs w ++ [preflight_call self; upload_call P self s;
                                    chmod_call P self s; exec_call P self s])%list
                   (cleanup_call P self s) = Raised e ->
    exists self' w',
      run P self false w = (Ret (false, self'), w')
      /\ w_files w' = (w_files w ++ saved_files P self')%list
      /\ res_exit_code (result self') = Some rc
      /\ res_success (result self') = (rc =? 0)
      /\ res_errors (result self') = (res_errors (result self) ++ [e])%list.
Proof.
  intros P self w s out err rc2 out2 err2 rc out3 err3 e
         Hprobe Hcommand Hscript Hs Hupload Hchmod Hexec Hcleanup.
  assert (Htruthy : truthy (VStr s) = true) by (cbn; now destruct s).
  destruct (run_script_from P self false s w false
              (with_error (with_exit self (out3 ++ err3) rc) e)
              [upload_call P self s; chmod_call P self s; exec_call P self s;
               cleanup_call P self s]
              Hprobe Hcommand Hscript Htruthy) as (w' & Hrun & Hprocs & Hfiles).
  { apply (script_cleanup_raised P self false s _ out err rc2 out2 err2 rc out3 err3 e
             Hupload); try reflexivity; rewrite <- app_assoc; assumption. }
  exists (with_error (with_exit self (out3 ++ err3) rc) e), w'.
  repeat split; assumption.
Qed.

Lemma cleanup_exception_fails_run_witness :
  exists self' w',
    run cleanup_raising_platform script_router false empty_world
    = (Ret (false, self'), w')
    /\ res_success (result self') = true
    /\ res_errors (result self') = ["ssh: cannot fork"].
Proof.
  assert (Hprobe : passed (subprocess_run cleanup_raising_platform (w_procs empty_world)
                                          (preflight_call script_router)) = true)
    by reflexivity.
  assert (Hs : "ops/deploy.sh" <> "") by discriminate.
  destruct (cleanup_exception_fails_run cleanup_raising_platform script_router
              empty_world "ops/deploy.sh" "ok" "" 0 "ok" "" 0 "ok" "" "ssh: cannot fork"
              Hprobe eq_refl eq_refl Hs eq_refl eq_refl eq_refl eq_refl)
    as (self' & w' & Hrun & _ & _ & Hsuccess & Herrors).
  exists self', w'. split; [exact Hrun|]. split; [exact Hsuccess | exact Herrors].
Defined.

(** The router a run leaves is the one it started from with at most an
    exit recorded and at most one error appended, and [run] returns
    [True] only on the path that records an exit with code 0 and no
    error. *)
Lemma run_outcome_shape P self keep_script procs :
  let b := fst (fst (fst (run_outcome P self keep_script procs))) in
  let self' := snd (fst (fst (run_outcome P self keep_script procs))) in
  (self' = self /\ b = false)
  \/ (exists e, self' = with_error self e /\ b = false)
  \/ (exists output rc, self' = with_exit self output rc /\ b = (rc =? 0))
  \/ (exists output rc e,
        self' = with_error (with_exit self output rc) e /\ b = false).
Proof.
  unfold run_outcome.
  destruct (subprocess_run P procs (preflight_call self)) as [rc0 ? ?|e0];
    cbn [passed after_preflight negb].
  2: { cbn [fst snd]. right. left. eauto. }
  destruct (rc0 =? 0); cbn [negb fst snd].
  2: { right. left. eauto. }
  destruct (truthy (command self)); cbn [fst snd].
  { destruct (subprocess_run P _ (command_call self)) as [rc ? ?|e];
      cbn [passed after_command].
    - right. right. left. eauto.
    - right. left. eauto. }
  destruct (script self) as [|s]; cbn [fst snd]; [now left|].
  destruct (truthy (VStr s)); cbn [fst snd]; [|now left].
  unfold script_outcome.
  destruct (subprocess_run P _ (upload_call P self s)) as [rc1 ? ?|e1];
    cbn [fst snd]; [|right; left; eauto].
  destruct (negb (rc1 =? 0)); cbn [fst snd]; [now left|].
  destruct (subprocess_run P _ (chmod_call P self s)) as [? ? ?|e2];
    cbn [fst snd]; [|right; left; eauto].
  destruct (subprocess_run P _ (exec_call P self s)) as [rc ? ?|e3];
    cbn [fst snd]; [|right; left; eauto].
  destruct keep_script; cbn [fst snd]; [right; right; left; eauto|].
  destruct (subprocess_run P _ (cleanup_call P self s)) as [? ? ?|e4];
    cbn [fst snd].
  - right. right. left. eauto.
  - right. right. right. eauto.
Qed.

(** X18. In every run of a router whose result is as [__init__] leaves it
    ([success] false, no exit code), [run] returns, and in the result it
    leaves [success] is true exactly when the recorded exit code is 0.
    When [run] returns [True], [success] is true, the exit code is 0 and
    no error has been recorded. *)
Theorem run_success_iff_exit_code_zero :
  forall (P : platform) (self : router) (keep_script : bool) (w : world),
    res_success (result self) = false ->
    res_exit_code (result self) = None ->
    exists b self' w',
      run P self keep_script w = (Ret (b, self'), w')
      /\ (res_success (result self') = true <-> res_exit_code (result self') = Some 0)
      /\ (b = true ->
          res_success (result self') = true
          /\ res_exit_code (result self') = Some 0
          /\ res_errors (result self') = res_errors (result self)).
Proof.
  intros P self keep_script w Hsuccess Hcode.
  destruct (RouterRun.run_from P self keep_script w) as (w' & Hrun & _ & _).
  pose proof (run_outcome_shape P self keep_script (w_procs w)) as Hshape.
  cbv zeta in Hshape.
  set (b := fst (fst (fst (run_outcome P self keep_script (w_procs w))))) in *.
  set (self' := snd (fst (fst (run_outcome P self keep_script (w_procs w))))) in *.
  clearbody b self'.
  exists b, self', w'. split; [exact Hrun|]. clear Hrun.
  destruct Hshape
    as [[-> ->]|[(e & -> & ->)|[(output & rc & -> & ->)|(output & rc & e & -> & ->)]]];
    cbn [result set_result with_error with_exit append_error record_exit
         res_success res_exit_code res_errors].
  - rewrite Hsuccess, Hcode. repeat split; intros; discriminate.
  - rewrite Hsuccess, Hcode. repeat split; intros; discriminate.
  - split.
    + rewrite Z.eqb_eq. split; [now intros -> | now intros [= ->]].
    + intros Hrc. rewrite Hrc. apply Z.eqb_eq in Hrc. now subst rc.
  - split; [|discriminate].
    rewrite Z.eqb_eq. split; [now intros -> | now intros [= ->]].
Qed.

Lemma run_success_iff_exit_code_zero_witness :
  exists b self' w',
    run (scripted_platform [ok; ok]) command_router false empty_world
    = (Ret (b, self'), w')
    /\ (res_success (result self') = true <-> res_exit_code (result self') = Some 0).
Proof.
  destruct (run_success_iff_exit_code_zero (scripted_platform [ok; ok]) command_router
              false empty_world eq_refl eq_refl)
    as (b & self' & w' & Hrun & Hiff & _).
  exists b, self', w'. split; [exact Hrun | exact Hiff].
Defined.

(** X19. A run changes nothing of the router but its result, and of the
    result nothing but the output, the exit code, [success] and the
    errors: the errors recorded before are kept and at most one is
    appended, the remote script path is never set, and the identifying
    fields (operation, time stamp, route, target, command, script, user)
    are those [__init__] wrote. *)
Theorem run_preserves_identity :
  forall (P : platform) (self : router) (keep_script : bool) (w : world),
    exists b self' w',
      run P self keep_script w = (Ret (b, self'), w')
      /\ self' = set_result self (result self')
      /\ (res_errors (result self') = res_errors (result self)
          \/ exists e, res_errors (result self') = (res_errors (result self) ++ [e])%list)
      /\ res_remote_script_path (result self') = res_remote_script_path (result self)
      /\ res_operation (result self') = res_operation (result self)
      /\ res_timestamp (result self') = res_timestamp (result self)
      /\ res_jump_chain (result self') = res_jump_chain (result self)
      /\ res_target_host (result self') = res_target_host (result self)
      /\ res_target_ip (result self') = res_target_ip (result self)
      /\ res_command (result self') = res_command (result self)
      /\ res_script (result self') = res_script (result self)
      /\ res_executed_by (result self') = res_executed_by (result self).
Proof.
  intros P self keep_script w.
  destruct (RouterRun.run_from P self keep_script w) as (w' & Hrun & _ & _).
  pose proof (run_outcome_shape P self keep_script (w_procs w)) as Hshape.
  cbv zeta in Hshape.
  set (b := fst (fst (fst (run_outcome P self keep_script (w_procs w))))) in *.
  set (self' := snd (fst (fst (run_outcome P self keep_script (w_procs w))))) in *.
  clearbody b self'.
  exists b, self', w'. split; [exact Hrun|]. clear Hrun.
  destruct Hshape
    as [[-> ->]|[(e & -> & ->)|[(output & rc & -> & ->)|(output & rc & e & -> & ->)]]];
    cbn [result set_result with_error with_exit append_error record_exit
         res_success res_exit_code res_errors res_remote_script_path res_operation
         res_timestamp res_jump_chain res_target_host res_target_ip res_command
         res_script res_executed_by];
    (split; [now destruct self|]); (split; [eauto|]); repeat split.
Qed.

(** X20. In execute mode, once the table is loaded and a route is found,
    [main] runs the router [__init__] builds and exits with code 0 when
    [run] returns [True] and with code 1 otherwise, adding no effect of
    its own.  It exits with 0 only if the remote process exited with 0:
    the result then has [success] true, exit code 0 and no error. *)
Theorem main_exit_code_mirrors_run :
  forall (P : platform) (args : arguments) (routes : list dict) (chain : value)
         (w : world),
    arg_list args = false ->
    truthy (arg_target args) = true ->
    truthy (arg_command args) = true \/ truthy (arg_script args) = true ->
    load_json P (arg_routes args) = JsonObject (Some routes) ->
    fst (find_route P routes (extract_ip P (str_value (arg_target args))) w)
    = Ret chain ->
    exists self b self' w',
      init P (arg_routes args) (str_value (arg_target args)) (arg_command args)
           (arg_script args) (arg_key args) (negb (arg_no_save args))
           (arg_output args) w = (Ret self, w)
      /\ jump_chain self = chain
      /\ run P self (arg_upload args) w = (Ret (b, self'), w')
      /\ main P args w = (Exit (if b then 0 else 1), w')
      /\ (b = true ->
          res_success (result self') = true
          /\ res_exit_code (result self') = Some 0
          /\ res_errors (result self') = []).
Proof.
  intros P args routes chain w Hlist Htarget Hpayload Hload Hfind.
  pose proof (init_returns P (arg_routes args) routes (str_value (arg_target args))
                (arg_command args) (arg_script args) (arg_key args)
                (negb (arg_no_save args)) (arg_output args) chain w Hload Hfind)
    as Hinit.
  match type of Hinit with _ = (Ret ?r, _) => set (self := r) in * end.
  destruct (RouterRun.run_from P self (arg_upload args) w) as (w' & Hrun & _ & _).
  pose proof (run_outcome_shape P self (arg_upload args) (w_procs w)) as Hshape.
  cbv zeta in Hshape.
  set (b := fst (fst (fst (run_outcome P self (arg_upload args) (w_procs w))))) in *.
  set (self' := snd (fst (fst (run_outcome P self (arg_upload args) (w_procs w))))) in *.
  clearbody b self'.
  exists self, b, self', w'.
  split; [exact Hinit|]. split; [reflexivity|]. split; [exact Hrun|]. split.
  - unfold main. rewrite Hlist, Htarget. cbn [negb].
    replace (negb (truthy (arg_command args)) && negb (truthy (arg_script args)))
      with false
      by (destruct Hpayload as [-> | ->]; cbn [negb andb];
          [reflexivity | now rewrite andb_false_r]).
    unfold bind at 1. rewrite Hinit. unfold bind at 1. rewrite Hrun. reflexivity.
  - intros ->.
    destruct Hshape
      as [[_ Hb]|[(e & _ & Hb)|[(output & rc & -> & Hb)|(output & rc & e & _ & Hb)]]];
      try discriminate.
    symmetry in Hb. cbn. rewrite Hb. apply Z.eqb_eq in Hb. now subst rc.
Qed.

Lemma main_exit_code_mirrors_run_witness :
  exists w',
    main (served_platform scenario_routes [ok; ok])
         (mkArguments "routes.json" (VStr "admin@10.1.2.3") (VStr "uptime") VNone VNone
                      false false false "./audit")
         empty_world = (Exit 0, w').
Proof.
  destruct (main_exit_code_mirrors_run
              (served_platform scenario_routes [ok; ok])
              (mkArguments "routes.json" (VStr "admin@10.1.2.3") (VStr "uptime") VNone
                           VNone false false false "./audit")
              scenario_routes (VStr "jumpA") empty_world
              eq_refl eq_refl (or_introl eq_refl) eq_refl eq_refl)
    as (self & b & self' & w' & Hinit & _ & Hrun & Hmain & _).
  exists w'. rewrite Hmain.
  assert (Hb : b = true).
  { pose proof (f_equal fst Hrun) as Hfst. injection Hinit as <-.
    vm_compute in Hfst. now injection Hfst as <- _. }
  now rewrite Hb.
Defined.

End RouterRunTheorems.

(* ================================================================== *)
(** * The run of a jump executor, phase by phase                       *)
(* ================================================================== *)

Module ExecutorRun.
Import SSHJumpExecutor ExecutorTrace.

Section WithPlatform.

Variable P : platform.

Lemma executor_test_connectivity_yields self procs files :
  yields (test_connectivity P self) procs files
         (Ret (passed (subprocess_run P procs (preflight_call self)),
               after_preflight self (subprocess_run P procs (preflight_call self))))
         [preflight_call self] [].
Proof.
  unfold test_connectivity. quiet_steps.
  fold (preflight_call self).
  destruct (subprocess_run P procs (preflight_call self)) as [rc out err|e] eqn:Eprobe;
    cbn [passed after_preflight]; [destruct (rc =? 0) eqn:Erc|]; walk.
Qed.

Lemma executor_execute_command_yields self procs files :
  yields (execute_command P self) procs files
         (Ret (passed (subprocess_run P procs (command_call self)),
               after_command self (subprocess_run P procs (command_call self))))
         [command_call self] [].
Proof.
  unfold execute_command. quiet_steps.
  fold (command_call self).
  destruct (subprocess_run P procs (command_call self)) as [rc out err|e] eqn:Ecommand;
    cbn [passed after_command]; walk.
Qed.

Lemma executor_execute_script_yields self keep_script script procs files :
  SSHJumpExecutor.script self = VStr script ->
  yields (execute_script P self keep_script) procs files
         (Ret (fst (script_outcome P self keep_script script procs)))
         (snd (script_outcome P self keep_script script procs)) [].
Proof.
  intros Hscript. unfold execute_script, script_outcome, on_exception.
  quiet_steps. rewrite Hscript.
  fold (upload_call P self script) (chmod_call P self script)
       (exec_call P self script).
  destruct (subprocess_run P procs (upload_call P self script))
    as [scp_code scp_out scp_err|e] eqn:Eupload; cbn [fst snd]; [|walk].
  destruct (negb (scp_code =? 0)) eqn:Escp; cbn [fst snd]; [walk|].
  destruct (subprocess_run P (procs ++ [upload_call P self script])%list
                           (chmod_call P self script))
    as [? ? ?|e] eqn:Echmod; cbn [fst snd]; [|walk].
  destruct (subprocess_run P (procs ++ [upload_call P self script;
                                        chmod_call P self script])%list
                           (exec_call P self script))
    as [rc out err|e] eqn:Eexec; cbn [fst snd]; [|walk].
  destruct keep_script; cbn [fst snd negb].
  - destruct (rc =? 0) eqn:Erc; walk.
  - destruct (subprocess_run P (procs ++ [upload_call P self script;
                                          chmod_call P self script;
                                          exec_call P self script])%list
                             (cleanup_call P self script))
      as [? ? ?|e] eqn:Ecleanup; cbn [fst snd];
      destruct (rc =? 0) eqn:Erc; walk.
Qed.

Lemma executor_save_output_file_yields self procs files :
  yields (save_output_file P self) procs files (Ret tt) [] (saved_files P self).
Proof.
  unfold save_output_file, saved_files.
  destruct (save_output self); cbn [negb]; [|apply yields_ret].
  destruct (mkdir_error P (audit_dir self)); [apply yields_eprint|].
  destruct (output_file_name P self) as [output_file|e]; [|apply yields_eprint].
  destruct (write_error P (audit_dir self) output_file); [apply yields_eprint|].
  apply (yields_bind _ _ procs files tt (Ret tt) [] [] _ []
           (yields_write_file _ _ _ procs files)).
  apply yields_print.
Qed.

Lemma executor_run_yields self keep_script procs files :
  yields (run P self keep_script) procs files
         (Ret (fst (fst (fst (run_outcome P self keep_script procs))),
               snd (fst (fst (run_outcome P self keep_script procs)))))
         (snd (fst (run_outcome P self keep_script procs)))
         (snd (run_outcome P self keep_script procs)).
Proof.
  unfold run, run_outcome. quiet_steps.
  pose proof (executor_test_connectivity_yields self procs files) as Hprobe.
  set (probe := subprocess_run P procs (preflight_call self)) in *.
  assert (Hself1 : passed probe = true -> after_preflight self probe = self).
  { unfold after_preflight. destruct probe as [rc ? ?|e]; simpl; [|discriminate].
    now intros ->. }
  destruct (passed probe) eqn:Epassed; cbn [negb fst snd].
  2: { then_step Hprobe.
       then_step (executor_save_output_file_yields (after_preflight self probe)
                    (procs ++ [preflight_call self])%list files).
       apply yields_ret. }
  rewrite (Hself1 eq_refl) in Hprobe. clear Hself1.
  destruct (truthy (command self)) eqn:Hcommand; cbn [fst snd].
  - then_step Hprobe. rewrite Hcommand.
    apply yields_assoc.
    then_step (executor_execute_command_yields self (procs ++ [preflight_call self])%list files).
    eapply yields_after_quiet; [apply yields_ret|].
    cbv beta iota.
    then_step (executor_save_output_file_yields
                 (after_command self
                    (subprocess_run P (procs ++ [preflight_call self])%list
                                    (command_call self)))
                 ((procs ++ [preflight_call self]) ++ [command_call self])%list files).
    walk.
  - destruct (script self) as [|script] eqn:Hscript.
    + cbn [truthy fst snd]. then_step Hprobe.
      rewrite Hcommand, Hscript. cbn [truthy].
      eapply yields_after_quiet; [apply yields_ret|]. walk.
    + destruct (truthy (VStr script)) eqn:Htruthy; cbn [fst snd].
      * pose proof (executor_execute_script_yields self keep_script script
                      (procs ++ [preflight_call self])%list files Hscript) as Hrun.
        destruct (script_outcome P self keep_script script
                                 (procs ++ [preflight_call self])%list)
          as [[success self2] calls].
        cbn [fst snd] in *.
        then_step Hprobe. rewrite Hcommand, Hscript, Htruthy.
        apply yields_assoc.
        then_step Hrun.
        eapply yields_after_quiet; [apply yields_ret|].
        cbv beta iota.
        then_step (executor_save_output_file_yields self2
                     ((procs ++ [preflight_call self]) ++ calls)%list files).
        walk.
      * then_step Hprobe. rewrite Hcommand, Hscript, Htruthy.
        eapply yields_after_quiet; [apply yields_ret|]. walk.
Qed.

Lemma executor_run_from self keep_script w :
  exists w',
    run P self keep_script w
    = (Ret (fst (fst (fst (run_outcome P self keep_script (w_procs w)))),
            snd (fst (fst (run_outcome P self keep_script (w_procs w))))), w')
    /\ w_procs w' = (w_procs w ++ snd (fst (run_outcome P self keep_script (w_procs w))))%list
    /\ w_files w' = (w_files w ++ snd (run_outcome P self keep_script (w_procs w)))%list.
Proof. exact (executor_run_yields self keep_script (w_procs w) (w_files w) w eq_refl eq_refl). Qed.

End WithPlatform.
End ExecutorRun.

Section ExecutorTheorems.
Import SSHJumpExecutor ExecutorTrace.

(** The executor a run leaves: the one it started from, possibly with an
    error appended, the exit of a command recorded, or, only for a script
    whose upload passed, the exit of the script and its remote path
    recorded, possibly followed by the error of the cleanup. *)
Lemma executor_run_outcome_shape P self keep_script procs :
  let self' := snd (fst (fst (run_outcome P self keep_script procs))) in
  self' = self
  \/ (exists e, self' = with_error self e)
  \/ (exists output rc, self' = with_exit self output rc)
  \/ (exists s output rc,
        truthy (command self) = false
        /\ script self = VStr s
        /\ passed (subprocess_run P (procs ++ [preflight_call self])%list
                                  (upload_call P self s)) = true
        /\ (self' = with_script_exit self output rc (remote_script_path P s)
            \/ exists e,
                 self' = with_error
                           (with_script_exit self output rc (remote_script_path P s)) e)).
Proof.
  unfold run_outcome.
  destruct (subprocess_run P procs (preflight_call self)) as [rc0 ? ?|e0];
    cbn [passed after_preflight negb].
  2: { cbn [fst snd]. right. left. eauto. }
  destruct (rc0 =? 0); cbn [negb fst snd].
  2: { right. left. eauto. }
  destruct (truthy (command self)) eqn:Hcommand; cbn [fst snd].
  { destruct (subprocess_run P _ (command_call self)) as [rc ? ?|e];
      cbn [passed after_command].
    - right. right. left. eauto.
    - right. left. eauto. }
  destruct (script self) as [|s] eqn:Hscript; cbn [fst snd]; [now left|].
  destruct (truthy (VStr s)); cbn [fst snd]; [|now left].
  unfold script_outcome.
  destruct (subprocess_run P _ (upload_call P self s)) as [rc1 ? ?|e1] eqn:Eupload;
    cbn [fst snd]; [|right; left; eauto].
  destruct (negb (rc1 =? 0)) eqn:Erc1; cbn [fst snd]; [right; left; eauto|].
  assert (Hpassed : passed (Exited rc1 stdout0 stderr0) = true)
    by (cbn; now apply negb_false_iff in Erc1).
  destruct (subprocess_run P _ (chmod_call P self s)) as [? ? ?|e2];
    cbn [fst snd]; [|right; left; eauto].
  destruct (subprocess_run P _ (exec_call P self s)) as [rc out3 err3|e3];
    cbn [fst snd]; [|right; left; eauto].
  destruct keep_script; cbn [fst snd].
  { right. right. right. exists s, (out3 ++ err3), rc.
    split; [reflexivity|]. split; [reflexivity|]. split; [rewrite Eupload; exact Hpassed|].
    left. reflexivity. }
  destruct (subprocess_run P _ (cleanup_call P self s)) as [? ? ?|e4];
    cbn [fst snd]; right; right; right; exists s, (out3 ++ err3), rc;
    (split; [reflexivity|]); (split; [reflexivity|]); (split; [rewrite Eupload; exact Hpassed|]).
  - left. reflexivity.
  - right. exists e4. reflexivity.
Qed.

Lemma executor_run_script_from P self keep_script s w :
  passed (subprocess_run P (w_procs w) (preflight_call self)) = true ->
  truthy (command self) = false ->
  script self = VStr s ->
  s <> "" ->
  exists w',
    run P self keep_script w
    = (Ret (fst (script_outcome P self keep_script s
                                (w_procs w ++ [preflight_call self])%list)), w')
    /\ w_procs w'
       = (w_procs w
          ++ preflight_call self
             :: snd (script_outcome P self keep_script s
                                    (w_procs w ++ [preflight_call self])%list))%list
    /\ w_files w'
       = (w_files w
          ++ saved_files P
               (snd (fst (script_outcome P self keep_script s
                                         (w_procs w ++ [preflight_call self])%list))))%list.
Proof.
  intros Hprobe Hcommand Hscript Hs.
  destruct (ExecutorRun.executor_run_from P self keep_script w)
    as (w' & Hrun & Hprocs & Hfiles).
  unfold run_outcome in Hrun, Hprocs, Hfiles.
  rewrite Hprobe, Hcommand, Hscript in Hrun, Hprocs, Hfiles.
  assert (Htruthy : truthy (VStr s) = true) by (cbn; now destruct s).
  rewrite Htruthy in Hrun, Hprocs, Hfiles. cbn [negb] in Hrun, Hprocs, Hfiles.
  destruct (script_outcome P self keep_script s (w_procs w ++ [preflight_call self])%list)
    as [[b self2] calls].
  exists w'. auto.
Qed.

(** X21. In [ssh_jump_exec.py], when the upload of the script exits with a
    non-zero code, [run] returns [False] after the probe and the copy, and
    the error ["Upload failed: "] followed by what [scp] wrote on its
    error stream is appended to the result; the script is neither made
    executable, nor run, nor removed. *)
Theorem executor_upload_failure_is_recorded :
  forall (P : platform) (self : executor) (keep_script : bool) (w : world)
         (s : string) (rc : Z) (out err : string),
    passed (subprocess_run P (w_procs w) (preflight_call self)) = true ->
    truthy (command self) = false ->
    script self = VStr s ->
    s <> "" ->
    subprocess_run P (w_procs w ++ [preflight_call self])%list (upload_call P self s)
    = Exited rc out err ->
    rc <> 0 ->
    exists self' w',
      run P self keep_script w = (Ret (false, self'), w')
      /\ w_procs w' = (w_procs w ++ [preflight_call self; upload_call P self s])%list
      /\ w_files w' = (w_files w ++ saved_files P self')%list
      /\ res_errors (result self')
         = (res_errors (result self) ++ [("Upload failed: " ++ err)%string])%list
      /\ res_success (result self') = res_success (result self).
Proof.
  intros P self keep_script w s rc out err Hprobe Hcommand Hscript Hs Hupload Hrc.
  destruct (executor_run_script_from P self keep_script s w Hprobe Hcommand Hscript Hs)
    as (w' & Hrun & Hprocs & Hfiles).
  unfold script_outcome in Hrun, Hprocs, Hfiles.
  rewrite Hupload in Hrun, Hprocs, Hfiles.
  apply Z.eqb_neq in Hrc. rewrite Hrc in Hrun, Hprocs, Hfiles.
  cbn [negb fst snd] in Hrun, Hprocs, Hfiles.
  eexists _, w'. split; [exact Hrun|]. split; [exact Hprocs|].
  split; [exact Hfiles|]. split; reflexivity.
Qed.

Lemma executor_upload_failure_is_recorded_witness :
  exists self' w',
    run upload_failing_platform script_executor false empty_world
    = (Ret (false, self'), w')
    /\ res_errors (result self') = ["Upload failed: scp: lost connection"].
Proof.
  assert (Hprobe : passed (subprocess_run upload_failing_platform (w_procs empty_world)
                                          (preflight_call script_executor)) = true)
    by reflexivity.
  assert (Hs : "ops/deploy.sh" <> "") by discriminate.
  assert (Hrc : 1 <> 0) by discriminate.
  destruct (executor_upload_failure_is_recorded upload_failing_platform script_executor
              false empty_world "ops/deploy.sh" 1 "" "scp: lost connection"
              Hprobe eq_refl eq_refl Hs eq_refl Hrc)
    as (self' & w' & Hrun & _ & _ & Herrors & _).
  exists self', w'. split; [exact Hrun | exact Herrors].
Defined.

(** X22. In [ssh_jump_exec.py], in every run of an executor whose result
    has no remote script path yet, the path is in the final result only
    if no command was given, a script was, its upload exited with 0 and
    the script has run to an exit, whose code is then recorded too; the
    path is the one the script was uploaded to.  Conversely, once the
    script has exited, with any return code, the path is in the result. *)
Theorem executor_remote_script_path_after_exit :
  forall (P : platform) (self : executor) (keep_script : bool) (w : world),
    res_remote_script_path (result self) = None ->
    exists b self' w',
      run P self keep_script w = (Ret (b, self'), w')
      /\ (forall path,
             res_remote_script_path (result self') = Some path ->
             truthy (command self) = false
             /\ exists s,
                  script self = VStr s
                  /\ path = remote_script_path P s
                  /\ passed (subprocess_run P (w_procs w ++ [preflight_call self])%list
                                            (upload_call P self s)) = true
                  /\ exists rc, res_exit_code (result self') = Some rc)
      /\ (forall s out err rc2 out2 err2 rc out3 err3,
             passed (subprocess_run P (w_procs w) (preflight_call self)) = true ->
             truthy (command self) = false ->
             script self = VStr s ->
             s <> "" ->
             subprocess_run P (w_procs w ++ [preflight_call self])%list
                            (upload_call P self s) = Exited 0 out err ->
             subprocess_run P (w_procs w ++ [preflight_call self; upload_call P self s])%list
                            (chmod_call P self s) = Exited rc2 out2 err2 ->
             subprocess_run P (w_procs w ++ [preflight_call self; upload_call P self s;
                                             chmod_call P self s])%list
                            (exec_call P self s) = Exited rc out3 err3 ->
             res_remote_script_path (result self') = Some (remote_script_path P s)
             /\ res_exit_code (result self') = Some rc).
Proof.
  intros P self keep_script w Hfresh.
  destruct (ExecutorRun.executor_run_from P self keep_script w) as (w' & Hrun & _ & _).
  eexists _, _, w'. split; [exact Hrun|]. clear Hrun. split.
  - intros path.
    pose proof (executor_run_outcome_shape P self keep_script (w_procs w)) as Hshape.
    cbv zeta in Hshape.
    destruct Hshape
      as [-> | [(e & ->) | [(output & rc & ->)
                           | (s & output & rc & Hcommand & Hscript & Hupload & Hself')]]];
      cbn [result set_result with_error with_exit append_error record_exit
           res_remote_script_path]; try (rewrite Hfresh; discriminate).
    destruct Hself' as [-> | (e & ->)]; cbn; intros [= <-];
      (split; [exact Hcommand|]); exists s; repeat split; eauto.
  - intros s out err rc2 out2 err2 rc out3 err3
           Hprobe Hcommand Hscript Hs Hupload Hchmod Hexec.
    unfold run_outcome. rewrite Hprobe, Hcommand, Hscript.
    assert (Htruthy : truthy (VStr s) = true) by (cbn; now destruct s).
    rewrite Htruthy. cbn [negb]. unfold script_outcome.
    rewrite Hupload. cbn [Z.eqb negb].
    rewrite <- !app_assoc. cbn [app]. rewrite Hchmod, Hexec.
    destruct keep_script; [split; reflexivity|].
    destruct (subprocess_run P _ (cleanup_call P self s)); split; reflexivity.
Qed.

Lemma executor_remote_script_path_after_exit_witness :
  exists b self' w',
    run script_failing_platform script_executor true empty_world
    = (Ret (b, self'), w')
    /\ res_remote_script_path (result self') = Some "/tmp/deploy.sh.4242"
    /\ res_exit_code (result self') = Some 2.
Proof.
  destruct (executor_remote_script_path_after_exit script_failing_platform
              script_executor true empty_world eq_refl)
    as (b & self' & w' & Hrun & _ & Hset).
  assert (Hprobe : passed (subprocess_run script_failing_platform (w_procs empty_world)
                                          (preflight_call script_executor)) = true)
    by reflexivity.
  assert (Hs : "ops/deploy.sh" <> "") by discriminate.
  destruct (Hset "ops/deploy.sh" "ok" "" 0 "ok" "" 2 "step 1" "step 2 failed"
                 Hprobe eq_refl eq_refl Hs eq_refl eq_refl eq_refl) as [Hpath Hcode].
  exists b, self', w'. split; [exact Hrun|]. split; [exact Hpath | exact Hcode].
Defined.

Lemma get_target_ip_yields P ssh_key jump_hosts target_host procs files :
  yields (get_target_ip P ssh_key jump_hosts target_host) procs files
         (Ret (match subprocess_run P procs
                       (target_ip_call ssh_key jump_hosts target_host) with
               | Exited rc out _ =>
                   if (rc =? 0) && negb (String.eqb out "") then strip out
                   else first_piece (split ":" (last_piece (split "@" target_host)))
               | Raised _ =>
                   first_piece (split ":" (last_piece (split "@" target_host)))
               end))
         [target_ip_call ssh_key jump_hosts target_host] [].
Proof.
  unfold get_target_ip. cbv zeta.
  fold (target_ip_call ssh_key jump_hosts target_host).
  destruct (subprocess_run P procs (target_ip_call ssh_key jump_hosts target_host))
    as [rc out err|e] eqn:Elookup.
  - destruct ((rc =? 0) && negb (String.eqb out "")) eqn:Etest; walk.
  - walk.
Qed.


(** X23. When the lookup of the target address fails (the process raises,
    exits with a non-zero code or prints nothing), [get_target_ip] falls
    back on the target itself: for a target [user@host:port], with the
    user and the port optional, it returns [host].  The lookup is the one
    process it starts. *)
Theorem get_target_ip_falls_back_on_host :
  forall (P : platform) (ssh_key : value) (jump_hosts user host port target : string)
         (w : world),
    has_char "@" host = false ->
    has_char ":" host = false ->
    has_char "@" port = false ->
    (target = host
     \/ target = user ++ "@" ++ host
     \/ target = host ++ ":" ++ port
     \/ target = user ++ "@" ++ host ++ ":" ++ port) ->
    lookup_failed (subprocess_run P (w_procs w) (target_ip_call ssh_key jump_hosts target))
    = true ->
    exists w',
      get_target_ip P ssh_key jump_hosts target w = (Ret host, w')
      /\ w_procs w' = (w_procs w ++ [target_ip_call ssh_key jump_hosts target])%list
      /\ w_files w' = w_files w.
Proof.
  intros P ssh_key jump_hosts user host port target w Hat Hcolon Hport Htarget Hfailed.
  destruct (get_target_ip_yields P ssh_key jump_hosts target (w_procs w) (w_files w)
              w eq_refl eq_refl) as (w' & Hrun & Hprocs & Hfiles).
  exists w'. rewrite app_nil_r in Hfiles.
  split; [|split; assumption].
  rewrite Hrun. do 2 f_equal.
  rewrite (host_token user host port Hat Hcolon Hport target Htarget).
  destruct (subprocess_run P (w_procs w) (target_ip_call ssh_key jump_hosts target))
    as [rc out err|e]; [|reflexivity].
  cbn [lookup_failed] in Hfailed. apply negb_true_iff in Hfailed. now rewrite Hfailed.
Qed.

Lemma get_target_ip_falls_back_on_host_witness :
  exists w',
    get_target_ip (scripted_platform [Exited 0 "" ""]) VNone "bastion1"
                  "admin@db.internal:2222" empty_world
    = (Ret "db.internal", w')
    /\ w_procs w' = [target_ip_call VNone "bastion1" "admin@db.internal:2222"]
    /\ w_files w' = [].
Proof.
  apply (get_target_ip_falls_back_on_host (scripted_platform [Exited 0 "" ""]) VNone
           "bastion1" "admin" "db.internal" "2222" "admin@db.internal:2222"
           empty_world eq_refl eq_refl eq_refl);
    [now right; right; right | reflexivity].
Defined.



End ExecutorTheorems.
